(** * Gmail gateway ([lib/gmail-fetch.py]): credential handling,
      message transcoding and mailbox operations.

    The Python program is embedded shallowly: JSON values coming from the
    remote API are an inductive type of Python values, exceptions are an
    inductive type threaded through an error monad, and the calls made on
    the remote service are logged in an explicit world state.

    Conventions.
    - A Python [str] is represented by the bytes of its UTF-8 encoding, a
      Python [bytes] object by its bytes; both are Rocq [string]s.
    - A Python [dict] with string keys is an association list; a lookup
      returns the first binding of the key. *)

From Stdlib Require Import ZArith NArith Lia List Bool Ascii String.
From stdpp Require Import base option list strings gmap.
Import ListNotations.
Local Open Scope string_scope.
Local Open Scope Z_scope.
Set Warnings "-register-all".

(** ** Python exceptions and the error monad *)

Inductive exn : Type :=
  | KeyError (key : string)
  | TypeError
  | AttributeError
  | ValueError
  | BinasciiError
  | UnicodeDecodeError
  | HttpError (status : Z) (message : string)
  | RefreshError (message : string)
  | OverflowError
  | KeyboardInterrupt
  | SystemExit (code : Z)
  | OtherError (name : string).

Inductive outcome (A : Type) : Type :=
  | Ok (a : A)
  | Raise (e : exn).
Arguments Ok {A} a.
Arguments Raise {A} e.

Definition obind {A B} (m : outcome A) (k : A -> outcome B) : outcome B :=
  match m with
  | Ok a => k a
  | Raise e => Raise e
  end.

#[global] Instance outcome_bind : MBind outcome := fun A B k m => obind m k.
#[global] Instance outcome_ret : MRet outcome := fun A a => Ok a.

Definition is_HttpError (e : exn) : bool :=
  match e with
  | HttpError _ _ => true
  | _ => false
  end.

(** The exception is an instance of [Exception]: every class above is a
    subclass of it but KeyboardInterrupt and SystemExit, which derive
    from BaseException alone.  [OtherError] stands for the other
    subclasses of [Exception]. *)
Definition is_Exception (e : exn) : bool :=
  match e with
  | KeyboardInterrupt | SystemExit _ => false
  | _ => true
  end.

(** ** Python values (the JSON documents of the remote API) *)

Inductive pyval : Type :=
  | PNone
  | PBool (b : bool)
  | PInt (z : Z)
  | PStr (s : string)
  | PList (l : list pyval)
  | PDict (d : list (string * pyval)).

Fixpoint dict_lookup (k : string) (d : list (string * pyval)) : option pyval :=
  match d with
  | [] => None
  | (k', v) :: d' => if String.eqb k k' then Some v else dict_lookup k d'
  end.

(** [v[k]] for a string key [k]: only a dict can be subscripted by a str. *)
Definition getitem (v : pyval) (k : string) : outcome pyval :=
  match v with
  | PDict d =>
      match dict_lookup k d with
      | Some x => Ok x
      | None => Raise (KeyError k)
      end
  | _ => Raise TypeError
  end.

(** [v.get(k, default)]: only a dict has the method. *)
Definition get_default (v : pyval) (k : string) (default : pyval) : outcome pyval :=
  match v with
  | PDict d =>
      match dict_lookup k d with
      | Some x => Ok x
      | None => Ok default
      end
  | _ => Raise AttributeError
  end.

(** [for x in v]: the elements a [for] loop visits.  A dict yields its
    keys.  A str yields its characters, given here one per byte: the loops
    of this program subscript every element with a str key, which fails on
    any str, so only the emptiness of that list is observable. *)
Definition py_iter (v : pyval) : outcome (list pyval) :=
  match v with
  | PList l => Ok l
  | PDict d => Ok (map (fun kv => PStr (fst kv)) d)
  | PStr s => Ok (map (fun c => PStr (String c EmptyString)) (list_ascii_of_string s))
  | _ => Raise TypeError
  end.

(** [v == 'lit'] for a str literal. *)
Definition py_eq_str (v : pyval) (lit : string) : bool :=
  match v with
  | PStr s => String.eqb s lit
  | _ => false
  end.

(** Truth value of an optional str argument ([None] and [''] are false). *)
Definition truthy (o : option string) : bool :=
  match o with
  | Some s => negb (String.eqb s "")
  | None => false
  end.

(** [s.lower()].  Only ASCII letters are folded: the program compares the
    result with the ASCII words date, from, to and subject, and no
    non-ASCII character lower-cases to a letter of these words. *)
Definition lower_ascii (c : ascii) : ascii :=
  let n := N_of_ascii c in
  if ((65 <=? n) && (n <=? 90))%N then ascii_of_N (n + 32) else c.

Fixpoint lower (s : string) : string :=
  match s with
  | EmptyString => EmptyString
  | String c s' => String (lower_ascii c) (lower s')
  end.

Definition py_lower (v : pyval) : outcome string :=
  match v with
  | PStr s => Ok (lower s)
  | _ => Raise AttributeError
  end.

(** ** base64 (module [base64] over [binascii])  *)

Module Base64.

(** [binascii]'s decoding table: the value of an alphabet character,
    64 for every other byte. *)
Definition table_a2b (c : N) : N :=
  if ((65 <=? c) && (c <=? 90))%N then (c - 65)%N
  else if ((97 <=? c) && (c <=? 122))%N then (c - 71)%N
  else if ((48 <=? c) && (c <=? 57))%N then (c + 4)%N
  else if (c =? 43)%N then 62%N
  else if (c =? 47)%N then 63%N
  else 64%N.

(** [binascii]'s encoding table. *)
Definition table_b2a (v : N) : N :=
  if (v <? 26)%N then (v + 65)%N
  else if (v <? 52)%N then (v + 71)%N
  else if (v <? 62)%N then (v - 4)%N
  else if (v =? 62)%N then 43%N
  else 47%N.

Definition byte (n : N) : ascii := ascii_of_N (n mod 256).

(** The loop of [binascii.a2b_base64] in its default, non-strict mode
    (CPython 3.11 and later):
    [quad_pos] is the position in the current group of four characters,
    [leftchar] the bits carried over, [pads] the number of padding
    characters seen since the last data character, [out] the bytes
    written so far. *)
Fixpoint a2b_loop (s : string) (quad_pos : nat) (leftchar : N) (pads : nat)
    (out : string) : outcome string :=
  match s with
  | EmptyString =>
      match quad_pos with
      | O => Ok out
      | _ => Raise BinasciiError
      end
  | String ch rest =>
      let c := N_of_ascii ch in
      if (c =? 61)%N then
        if (2 <=? quad_pos)%nat then
          if (4 <=? quad_pos + S pads)%nat then Ok out
          else a2b_loop rest quad_pos leftchar (S pads) out
        else a2b_loop rest quad_pos leftchar pads out
      else
        let this_ch := table_a2b c in
        if (64 <=? this_ch)%N then a2b_loop rest quad_pos leftchar pads out
        else
          match quad_pos with
          | 0%nat => a2b_loop rest 1 this_ch 0 out
          | 1%nat =>
              a2b_loop rest 2 (N.land this_ch 15) 0
                (out ++ String (byte (N.lor (N.shiftl leftchar 2) (N.shiftr this_ch 4))) "")
          | 2%nat =>
              a2b_loop rest 3 (N.land this_ch 3) 0
                (out ++ String (byte (N.lor (N.shiftl leftchar 4) (N.shiftr this_ch 2))) "")
          | _ =>
              a2b_loop rest 0 0 0
                (out ++ String (byte (N.lor (N.shiftl leftchar 6) this_ch)) "")
          end
  end.

Definition a2b_base64 (s : string) : outcome string := a2b_loop s 0 0 0 "".

(** The 6-bit values of a group of three bytes, and of the last group
    when one byte or two bytes are left over. *)
Definition sextet1 (a : ascii) : N := N.shiftr (N_of_ascii a) 2.
Definition sextet2 (a b : ascii) : N :=
  N.lor (N.shiftl (N.land (N_of_ascii a) 3) 4) (N.shiftr (N_of_ascii b) 4).
Definition sextet3 (b c : ascii) : N :=
  N.lor (N.shiftl (N.land (N_of_ascii b) 15) 2) (N.shiftr (N_of_ascii c) 6).
Definition sextet4 (c : ascii) : N := N.land (N_of_ascii c) 63.
Definition last2 (a : ascii) : N := N.shiftl (N.land (N_of_ascii a) 3) 4.
Definition last4 (b : ascii) : N := N.shiftl (N.land (N_of_ascii b) 15) 2.

Definition b2a_char (v : N) : ascii := ascii_of_N (table_b2a v).

(** [binascii.b2a_base64(s, newline=False)], one group of three bytes
    at a time. *)
Fixpoint b2a_base64 (s : string) : string :=
  match s with
  | EmptyString => EmptyString
  | String a EmptyString =>
      String (b2a_char (sextet1 a)) (String (b2a_char (last2 a)) "==")
  | String a (String b EmptyString) =>
      String (b2a_char (sextet1 a))
        (String (b2a_char (sextet2 a b)) (String (b2a_char (last4 b)) "="))
  | String a (String b (String c rest)) =>
      String (b2a_char (sextet1 a))
        (String (b2a_char (sextet2 a b))
           (String (b2a_char (sextet3 b c))
              (String (b2a_char (sextet4 c)) (b2a_base64 rest))))
  end.

(** [bytes.translate] with the two url-safe maps of module [base64]. *)
Definition urlsafe_decode_char (c : ascii) : ascii :=
  let n := N_of_ascii c in
  if (n =? 45)%N then "+"%char else if (n =? 95)%N then "/"%char else c.

Definition urlsafe_encode_char (c : ascii) : ascii :=
  let n := N_of_ascii c in
  if (n =? 43)%N then "-"%char else if (n =? 47)%N then "_"%char else c.

Fixpoint translate (f : ascii -> ascii) (s : string) : string :=
  match s with
  | EmptyString => EmptyString
  | String c s' => String (f c) (translate f s')
  end.

Fixpoint is_ascii (s : string) : bool :=
  match s with
  | EmptyString => true
  | String c s' => (N_of_ascii c <? 128)%N && is_ascii s'
  end.

(** [base64.urlsafe_b64decode(s)] for a str [s]: the str is encoded as
    ASCII ([ValueError] otherwise), translated and decoded. *)
Definition urlsafe_b64decode (s : string) : outcome string :=
  if is_ascii s then a2b_base64 (translate urlsafe_decode_char s)
  else Raise ValueError.

(** [base64.urlsafe_b64encode(s)] for bytes [s]. *)
Definition urlsafe_b64encode (s : string) : string :=
  translate urlsafe_encode_char (b2a_base64 s).

End Base64.

(** ** UTF-8 ([bytes.decode('utf-8')], strict error handling) *)

Module Utf8.

Definition in_range (lo hi : N) (c : ascii) : bool :=
  ((lo <=? N_of_ascii c) && (N_of_ascii c <=? hi))%N.

Definition cont (c : ascii) : bool := in_range 128 191 c.

(** Well-formed byte sequences of Unicode's table 3-7: no overlong
    form, no surrogate, nothing above U+10FFFF. *)
Fixpoint valid (s : string) : bool :=
  match s with
  | EmptyString => true
  | String a r1 =>
      if in_range 0 127 a then valid r1
      else
        match r1 with
        | EmptyString => false
        | String b r2 =>
            if in_range 194 223 a then cont b && valid r2
            else
              match r2 with
              | EmptyString => false
              | String c r3 =>
                  if in_range 224 224 a then in_range 160 191 b && cont c && valid r3
                  else if in_range 237 237 a then in_range 128 159 b && cont c && valid r3
                  else if in_range 225 239 a then cont b && cont c && valid r3
                  else
                    match r3 with
                    | EmptyString => false
                    | String d r4 =>
                        if in_range 240 240 a then
                          in_range 144 191 b && cont c && cont d && valid r4
                        else if in_range 241 243 a then
                          cont b && cont c && cont d && valid r4
                        else if in_range 244 244 a then
                          in_range 128 143 b && cont c && cont d && valid r4
                        else false
                    end
              end
        end
  end.

(** A str is held as its UTF-8 bytes, so decoding checks and keeps them. *)
Definition decode (bytes : string) : outcome string :=
  if valid bytes then Ok bytes else Raise UnicodeDecodeError.

End Utf8.

(** ** MessageTranscoder, read direction *)

Record Email : Type := mkEmail {
  email_id : pyval;
  email_thread_id : pyval;
  email_snippet : pyval;
  email_date : pyval;
  email_from : pyval;
  email_to : pyval;
  email_subject : pyval;
  email_body : string;
  email_is_html : bool
}.

(** [base64.urlsafe_b64decode(data).decode('utf-8')]. *)
Definition decode_data (data : pyval) : outcome string :=
  match data with
  | PStr s =>
      raw ← Base64.urlsafe_b64decode s;
      Utf8.decode raw
  | _ => Raise TypeError
  end.

(** The two assignments of a matched part: [part['body']['data']], decoded. *)
Definition part_text (part : pyval) : outcome string :=
  b ← getitem part "body";
  data ← getitem b "data";
  decode_data data.

(** The [for part in payload['parts']] loop of [_get_message_body]; both
    branches end in [break]. *)
Fixpoint body_of_parts (parts : list pyval) : outcome string :=
  match parts with
  | [] => Ok ""
  | part :: rest =>
      mt ← getitem part "mimeType";
      if py_eq_str mt "text/plain" then part_text part
      else
        mt' ← getitem part "mimeType";
        if py_eq_str mt' "text/html" then part_text part
        else body_of_parts rest
  end.

(** [GmailAPI._get_message_body].  On a payload that is not a dict every
    path ends in [TypeError]: ['parts' in payload] raises it on None, bool
    and int, and on a str or a list the subscript that follows does. *)
Definition _get_message_body (payload : pyval) : outcome string :=
  match payload with
  | PDict d =>
      match dict_lookup "parts" d with
      | Some _ =>
          parts ← getitem payload "parts";
          items ← py_iter parts;
          body_of_parts items
      | None =>
          mt ← getitem payload "mimeType";
          if py_eq_str mt "text/plain" then part_text payload
          else
            mt' ← getitem payload "mimeType";
            if py_eq_str mt' "text/html" then part_text payload
            else Ok ""
      end
  | _ => Raise TypeError
  end.

Definition set_date (e : Email) (v : pyval) : Email :=
  mkEmail (email_id e) (email_thread_id e) (email_snippet e) v (email_from e)
    (email_to e) (email_subject e) (email_body e) (email_is_html e).
Definition set_from (e : Email) (v : pyval) : Email :=
  mkEmail (email_id e) (email_thread_id e) (email_snippet e) (email_date e) v
    (email_to e) (email_subject e) (email_body e) (email_is_html e).
Definition set_to (e : Email) (v : pyval) : Email :=
  mkEmail (email_id e) (email_thread_id e) (email_snippet e) (email_date e)
    (email_from e) v (email_subject e) (email_body e) (email_is_html e).
Definition set_subject (e : Email) (v : pyval) : Email :=
  mkEmail (email_id e) (email_thread_id e) (email_snippet e) (email_date e)
    (email_from e) (email_to e) v (email_body e) (email_is_html e).
Definition set_body (e : Email) (b : string) : Email :=
  mkEmail (email_id e) (email_thread_id e) (email_snippet e) (email_date e)
    (email_from e) (email_to e) (email_subject e) b (email_is_html e).

(** The [for header in headers] loop of [_parse_email]. *)
Fixpoint scan_headers (headers : list pyval) (e : Email) : outcome Email :=
  match headers with
  | [] => Ok e
  | header :: rest =>
      n ← getitem header "name";
      name ← py_lower n;
      if String.eqb name "date" then
        v ← getitem header "value"; scan_headers rest (set_date e v)
      else if String.eqb name "from" then
        v ← getitem header "value"; scan_headers rest (set_from e v)
      else if String.eqb name "to" then
        v ← getitem header "value"; scan_headers rest (set_to e v)
      else if String.eqb name "subject" then
        v ← getitem header "value"; scan_headers rest (set_subject e v)
      else scan_headers rest e
  end.

(** The first half of [_parse_email] (source lines 202 to 226): the
    record with its header fields, the body still empty. *)
Definition parse_headers (msg : pyval) : outcome Email :=
  p ← getitem msg "payload";
  headers ← get_default p "headers" (PList []);
  id ← getitem msg "id";
  thread_id ← getitem msg "threadId";
  snippet ← getitem msg "snippet";
  let email_data := mkEmail id thread_id snippet PNone PNone PNone PNone "" false in
  hs ← py_iter headers;
  scan_headers hs email_data.

(** [GmailAPI._parse_email]. *)
Definition _parse_email (msg : pyval) : outcome Email :=
  email_data ← parse_headers msg;
  p ← getitem msg "payload";
  body ← _get_message_body p;
  Ok (set_body email_data body).

(** ** State and exceptions together: the monad of the effectful code *)

Definition ST (W A : Type) : Type := W -> outcome A * W.

Definition st_ret {W A} (a : A) : ST W A := fun w => (Ok a, w).

Definition st_bind {W A B} (m : ST W A) (k : A -> ST W B) : ST W B :=
  fun w =>
    match m w with
    | (Ok a, w') => k a w'
    | (Raise e, w') => (Raise e, w')
    end.

#[global] Instance ST_ret {W} : MRet (ST W) := fun A a => st_ret a.
#[global] Instance ST_bind {W} : MBind (ST W) := fun A B k m => st_bind m k.

(** A pure computation that may raise, run inside the monad. *)
Definition lift {W A} (o : outcome A) : ST W A := fun w => (o, w).

(** [try: body  except HttpError as error: handler(error)]; every other
    exception keeps propagating. *)
Definition try_except_HttpError {W A} (body : ST W A) (handler : exn -> ST W A) : ST W A :=
  fun w =>
    match body w with
    | (Ok a, w') => (Ok a, w')
    | (Raise e, w') => if is_HttpError e then handler e w' else (Raise e, w')
    end.

(** [try: body  except Exception as e: handler(e)]; an exception
    that is not an instance of [Exception] keeps propagating. *)
Definition try_except_Exception {W A} (body : ST W A) (handler : exn -> ST W A) : ST W A :=
  fun w =>
    match body w with
    | (Ok a, w') => (Ok a, w')
    | (Raise e, w') => if is_Exception e then handler e w' else (Raise e, w')
    end.

(** ** MessageTranscoder, write direction: [email.message.Message] *)

Inductive Message : Type :=
  | mkMessage (headers : list (string * string)) (payload : mime_payload)
with mime_payload : Type :=
  | TextPayload (text : string)
  | Multipart (parts : list Message).

Definition msg_headers (m : Message) : list (string * string) :=
  match m with mkMessage hs _ => hs end.
Definition msg_payload (m : Message) : mime_payload :=
  match m with mkMessage _ p => p end.

(** [message[name] = value] appends a header and keeps the earlier ones. *)
Definition msg_set (m : Message) (name value : string) : Message :=
  mkMessage (msg_headers m ++ [(name, value)]) (msg_payload m).

(** [message.attach(part)] on a multipart container. *)
Definition msg_attach (m : Message) (part : Message) : Message :=
  match msg_payload m with
  | Multipart ps => mkMessage (msg_headers m) (Multipart (ps ++ [part]))
  | TextPayload _ => m
  end.

(** [message.get_all(name)] and [message[name]]: names are compared
    without regard to case, [message[name]] is the first match. *)
Definition msg_get_all (m : Message) (name : string) : list string :=
  map snd (List.filter (fun h => String.eqb (lower (fst h)) (lower name)) (msg_headers m)).

Definition msg_get (m : Message) (name : string) : option string :=
  head (msg_get_all m name).

Definition dquote : string := String "034" "".

(** [MIMEText(text, subtype)]: the charset is us-ascii when the text is
    ASCII and utf-8 otherwise. *)
Definition MIMEText (text subtype : string) : Message :=
  let ascii_only := Base64.is_ascii text in
  let charset := if ascii_only then "us-ascii" else "utf-8" in
  mkMessage
    [("Content-Type", "text/" ++ subtype ++ "; charset=" ++ dquote ++ charset ++ dquote);
     ("MIME-Version", "1.0");
     ("Content-Transfer-Encoding", if ascii_only then "7bit" else "base64")]
    (TextPayload text).

(** [MIMEMultipart(subtype)]. *)
Definition MIMEMultipart (subtype : string) : Message :=
  mkMessage
    [("Content-Type", "multipart/" ++ subtype); ("MIME-Version", "1.0")]
    (Multipart []).

(** The message object [send_email] builds (source lines 151 to 164). *)
Definition build_message (to_email subject body : string) (is_html : bool)
    (reply_to_id : option string) : Message :=
  let message :=
    if is_html then msg_attach (MIMEMultipart "alternative") (MIMEText body "html")
    else MIMEText body "plain" in
  let message := msg_set message "to" to_email in
  let message := msg_set message "subject" subject in
  if truthy reply_to_id then
    let message := msg_set message "In-Reply-To" (default "" reply_to_id) in
    msg_set message "References" (default "" reply_to_id)
  else message.

(** ** MailboxGateway *)

Inductive request : Type :=
  | ReqList (q : string) (maxResults : Z)
  | ReqGet (id : pyval)
  | ReqSend (body : pyval)
  | ReqModify (id : string) (body : pyval)
  | ReqProfile.

(** What the program runs against: the remote mailbox API behind
    [.execute()], the serializer of the [email] package, [str()] of an
    exception and the clock.  [date_since days] is
    [(datetime.now() - timedelta(days=days)).strftime('%Y/%m/%d')], which
    raises OverflowError when [days] or the resulting date is out of
    range. *)
Class Platform : Type := {
  execute : request -> outcome pyval;
  as_bytes : Message -> outcome string;
  str_exn : exn -> string;
  date_since : Z -> outcome string
}.

Record world : Type := mkWorld {
  calls : list request;
  stdout : list string
}.

Definition print (line : string) : ST world unit :=
  fun w => (Ok tt, mkWorld (calls w) (stdout w ++ [line])).

Inductive send_result : Type :=
  | SendOk (message_id thread_id : pyval)
  | SendFailed (error : string).

Section Gateway.
Context {P : Platform}.

(** One [service.users()...execute()] call: logged, then answered. *)
Definition call (r : request) : ST world pyval :=
  fun w => (execute r, mkWorld (calls w ++ [r]) (stdout w)).

(** The [for message in messages] loop shared by both batch reads. *)
Fixpoint fetch_each (messages : list pyval) (emails : list Email) : ST world (list Email) :=
  match messages with
  | [] => mret emails
  | message :: rest =>
      id ← lift (getitem message "id");
      msg ← call (ReqGet id);
      email_data ← lift (_parse_email msg);
      fetch_each rest (emails ++ [email_data])
  end.

Definition fetch_query (query : string) (limit : Z) : ST world (list Email) :=
  results ← call (ReqList query limit);
  messages ← lift (get_default results "messages" (PList []));
  items ← lift (py_iter messages);
  fetch_each items [].

Definition report_fetch_error (error : exn) : ST world (list Email) :=
  _ ← print ("❌ Error fetching emails: " ++ str_exn error);
  mret [].

(** The search expression of [get_unread_emails]. *)
Definition unread_query (sender_filter subject_filter : option string) : string :=
  let query := "is:unread" in
  let query :=
    if truthy sender_filter then query ++ " from:" ++ default "" sender_filter
    else query in
  if truthy subject_filter then query ++ " subject:" ++ default "" subject_filter
  else query.

(** [GmailAPI.get_unread_emails]. *)
Definition get_unread_emails (limit : Z) (sender_filter subject_filter : option string)
    : ST world (list Email) :=
  try_except_HttpError
    (fetch_query (unread_query sender_filter subject_filter) limit)
    report_fetch_error.

(** The search expression of [get_emails_by_filter] (source lines 122
    to 127); computing the date may raise. *)
Definition filter_query (days : Z) (query_filter : string) : outcome string :=
  date_str ← date_since days;
  let query := "after:" ++ date_str in
  Ok (if negb (String.eqb query_filter "") then query ++ " " ++ query_filter
      else query).

(** [GmailAPI.get_emails_by_filter]. *)
Definition get_emails_by_filter (days limit : Z) (query_filter : string)
    : ST world (list Email) :=
  try_except_HttpError
    (query ← lift (filter_query days query_filter);
     fetch_query query limit)
    report_fetch_error.

(** The request body [send_email] hands to the send endpoint (source
    lines 151 to 170). *)
Definition send_email_request (to_email subject body : string) (is_html : bool)
    (reply_to_id : option string) : outcome pyval :=
  let message := build_message to_email subject body is_html reply_to_id in
  raw ← as_bytes message;
  let raw_message := Base64.urlsafe_b64encode raw in
  let send_message := [("raw", PStr raw_message)] in
  Ok (PDict
        (if truthy reply_to_id then
           send_message ++ [("threadId", PStr (default "" reply_to_id))]
         else send_message)).

(** [GmailAPI.send_email]. *)
Definition send_email (to_email subject body : string) (is_html : bool)
    (reply_to_id : option string) : ST world send_result :=
  try_except_HttpError
    (send_message ← lift (send_email_request to_email subject body is_html reply_to_id);
     result ← call (ReqSend send_message);
     message_id ← lift (getitem result "id");
     thread_id ← lift (get_default result "threadId" PNone);
     mret (SendOk message_id thread_id))
    (fun error => mret (SendFailed (str_exn error))).

(** [GmailAPI.mark_as_read]. *)
Definition mark_as_read (message_id : string) : ST world bool :=
  try_except_HttpError
    (_ ← call (ReqModify message_id (PDict [("removeLabelIds", PList [PStr "UNREAD"])]));
     mret true)
    (fun error =>
       _ ← print ("❌ Error marking email as read: " ++ str_exn error);
       mret false).

End Gateway.

(** *** The label state a modify request acts on *)

(** The str elements of a list value. *)
Fixpoint str_items (l : list pyval) : list string :=
  match l with
  | [] => []
  | PStr s :: l' => s :: str_items l'
  | _ :: l' => str_items l'
  end.

Definition label_list (body : pyval) (key : string) : list string :=
  match get_default body key (PList []) with
  | Ok (PList l) => str_items l
  | _ => []
  end.

(** The label delta of a modify body: labels added, labels removed. *)
Definition label_delta (body : pyval) : list string * list string :=
  (label_list body "addLabelIds", label_list body "removeLabelIds").

(** Modelled from the spec: the label mutation of the remote API's
    modify-message(id, label_deltas) (sections 4.3 and 6), which is not
    code of the repository: the labels of the delta are removed from and
    added to the label set of the message. *)
Definition apply_delta (delta : list string * list string) (labels : gset string) : gset string :=
  (labels ∖ list_to_set (snd delta)) ∪ list_to_set (fst delta).

(** Modelled from the spec: the remote mailbox as far as labels go, a
    map from message id to label set.  A modify request applies its
    delta to the labels of its message, any other request leaves labels
    alone. *)
Definition remote_labels (r : request) (mailbox : gmap string (gset string))
    : gmap string (gset string) :=
  match r with
  | ReqModify id body => alter (apply_delta (label_delta body)) id mailbox
  | _ => mailbox
  end.

Definition remote_labels_all (rs : list request) (mailbox : gmap string (gset string))
    : gmap string (gset string) :=
  fold_left (fun mb r => remote_labels r mb) rs mailbox.

(** ** CredentialManager *)

(** What the program reads of a [google.oauth2.credentials.Credentials]
    object: the properties [valid] and [expired] as the library reports
    them, the refresh token, and the JSON text of [to_json()]. *)
Record Credentials : Type := mkCredentials {
  cred_valid : bool;
  cred_expired : bool;
  cred_refresh_token : option string;
  cred_json : string
}.

Inductive auth_event : Type :=
  | EvRefresh (c : Credentials)
  | EvLocalServer
  | EvFetchToken (code : string)
  | EvOpenTruncate
  | EvWrite (data : string)
  | EvBuild (c : Credentials).

(** An event that talks to the authorization server. *)
Definition is_exchange (ev : auth_event) : bool :=
  match ev with
  | EvRefresh _ | EvLocalServer | EvFetchToken _ => true
  | _ => false
  end.

Definition is_write (ev : auth_event) : bool :=
  match ev with
  | EvOpenTruncate | EvWrite _ => true
  | _ => false
  end.

(** The libraries and servers behind the credential code. *)
Class AuthPlatform : Type := {
  from_authorized_user_file : string -> outcome Credentials;
  refresh : Credentials -> outcome Credentials;
  from_client_secrets_file : string -> outcome unit;
  run_local_server : string -> outcome Credentials;
  authorization_url : string -> string;
  fetch_token : string -> string -> outcome Credentials;
  build : Credentials -> outcome unit;
  credentials_path : string;
  str_auth_exn : exn -> string
}.

(** The credential directory, the client object and the console. *)
Record auth_world : Type := mkAuthWorld {
  token_file : option string;
  secrets_file : option string;
  service : option Credentials;
  events : list auth_event;
  auth_stdout : list string
}.

Definition log_event (ev : auth_event) : ST auth_world unit :=
  fun w => (Ok tt, mkAuthWorld (token_file w) (secrets_file w) (service w)
                     (events w ++ [ev]) (auth_stdout w)).

Definition auth_print (line : string) : ST auth_world unit :=
  fun w => (Ok tt, mkAuthWorld (token_file w) (secrets_file w) (service w)
                     (events w) (auth_stdout w ++ [line])).

Definition set_service (c : Credentials) : ST auth_world unit :=
  fun w => (Ok tt, mkAuthWorld (token_file w) (secrets_file w) (Some c)
                     (events w) (auth_stdout w)).

Definition read_token_file : ST auth_world (option string) :=
  fun w => (Ok (token_file w), w).

Definition read_secrets_file : ST auth_world (option string) :=
  fun w => (Ok (secrets_file w), w).

(** [open(token_path, 'w')] creates the file or truncates it to length
    zero at once. *)
Definition fs_open_truncate : ST auth_world unit :=
  fun w => (Ok tt, mkAuthWorld (Some "") (secrets_file w) (service w)
                     (events w ++ [EvOpenTruncate]) (auth_stdout w)).

(** [token.write(data)], flushed when the [with] block closes the file. *)
Definition fs_write (data : string) : ST auth_world unit :=
  fun w => (Ok tt, mkAuthWorld (Some (default "" (token_file w) ++ data)) (secrets_file w)
                     (service w) (events w ++ [EvWrite data]) (auth_stdout w)).

(** The steps of [with open(token_path, 'w') as token:
    token.write(creds.to_json())], in order. *)
Definition save_steps (c : Credentials) : list (ST auth_world unit) :=
  [fs_open_truncate; fs_write (cred_json c)].

Fixpoint run_steps (steps : list (ST auth_world unit)) : ST auth_world unit :=
  match steps with
  | [] => mret tt
  | step :: rest => _ ← step; run_steps rest
  end.

Definition save_credentials (c : Credentials) : ST auth_world unit :=
  run_steps (save_steps c).

(** The run of the save that is cut short after [n] steps. *)
Definition interrupted_save (n : nat) (c : Credentials) : ST auth_world unit :=
  run_steps (take n (save_steps c)).

Section Auth.
Context {P : AuthPlatform}.

Definition external {A} (ev : auth_event) (o : outcome A) : ST auth_world A :=
  _ ← log_event ev; lift o.

Definition print_missing_credentials : ST auth_world unit :=
  _ ← auth_print "❌ Gmail credentials not found!";
  _ ← auth_print "Please download 'credentials.json' from Google Cloud Console and place it at:";
  _ ← auth_print ("   " ++ credentials_path);
  _ ← auth_print (String "010" "Setup Guide:");
  _ ← auth_print "1. Go to https://console.cloud.google.com/";
  _ ← auth_print "2. Create/select project";
  _ ← auth_print "3. Enable Gmail API";
  _ ← auth_print "4. Create OAuth 2.0 credentials (Desktop application)";
  auth_print "5. Download credentials.json".

Definition print_manual_setup (secrets : string) : ST auth_world unit :=
  _ ← auth_print "❌ Local server authentication failed (headless environment)";
  _ ← auth_print "📋 Manual OAuth setup required:";
  _ ← auth_print ("1. Go to: " ++ authorization_url secrets);
  _ ← auth_print "2. Authorize the application";
  _ ← auth_print "3. Copy the authorization code";
  auth_print "4. Run: ./lib/gmail-fetch.sh auth-code <CODE>".

(** The last block of [authenticate]: build the client. *)
Definition build_service (creds : Credentials) : ST auth_world bool :=
  try_except_Exception
    (_ ← external (EvBuild creds) (build creds);
     _ ← set_service creds;
     mret true)
    (fun e =>
       _ ← auth_print ("❌ Gmail API authentication failed: " ++ str_auth_exn e);
       mret false).

(** The consent path of [authenticate] (source lines 52 to 77): the
    result is the new credentials, or [None] where the source returns
    False. *)
Definition consent : ST auth_world (option Credentials) :=
  secrets ← read_secrets_file;
  match secrets with
  | None => _ ← print_missing_credentials; mret None
  | Some content =>
      _ ← lift (from_client_secrets_file content);
      try_except_Exception
        (c ← external EvLocalServer (run_local_server content); mret (Some c))
        (fun e => _ ← print_manual_setup content; mret None)
  end.

(** [GmailAPI.authenticate]. *)
Definition authenticate : ST auth_world bool :=
  file ← read_token_file;
  creds ← match file with
          | Some content => c ← lift (from_authorized_user_file content); mret (Some c)
          | None => mret None
          end;
  match creds with
  | Some c =>
      if cred_valid c then build_service c
      else if cred_expired c && truthy (cred_refresh_token c) then
        c' ← external (EvRefresh c) (refresh c);
        _ ← save_credentials c';
        build_service c'
      else
        fresh ← consent;
        match fresh with
        | Some c' => _ ← save_credentials c'; build_service c'
        | None => mret false
        end
  | None =>
      fresh ← consent;
      match fresh with
      | Some c' => _ ← save_credentials c'; build_service c'
      | None => mret false
      end
  end.

(** The [auth-code] command of [main] (source lines 439 to 465); the
    result is the exit status. *)
Definition auth_code (code : option string) : ST auth_world Z :=
  if negb (truthy code) then
    _ ← auth_print "❌ Missing required argument: --code"; mret 1
  else
    secrets ← read_secrets_file;
    match secrets with
    | None => lift (Raise (OtherError "FileNotFoundError"))
    | Some content =>
        _ ← lift (from_client_secrets_file content);
        try_except_Exception
          (creds ← external (EvFetchToken (default "" code))
                     (fetch_token content (default "" code));
           _ ← save_credentials creds;
           _ ← auth_print "✅ Gmail API authentication successful!";
           _ ← auth_print "🎯 Run './lib/gmail-fetch.sh setup-check' to verify";
           mret 0)
          (fun e =>
             _ ← auth_print ("❌ Authentication failed: " ++ str_auth_exn e);
             mret 1)
    end.

End Auth.

(** ** Which part the body is taken from *)

Definition mime_type_is (part : pyval) (lit : string) : bool :=
  match getitem part "mimeType" with
  | Ok mt => py_eq_str mt lit
  | Raise _ => false
  end.

(** A part whose type is one of the two text types. *)
Definition is_text (part : pyval) : bool :=
  mime_type_is part "text/plain" || mime_type_is part "text/html".

(** A part that has a type, and not one of the two text types. *)
Definition is_other (part : pyval) : bool :=
  match getitem part "mimeType" with
  | Ok mt => negb (py_eq_str mt "text/plain") && negb (py_eq_str mt "text/html")
  | Raise _ => false
  end.

(** [chooses payload part]: [part] is the first direct child of [payload]
    with a text type, every child before it having another type; or
    [payload] has no ['parts'] key, has a text type, and is [part]. *)
Definition chooses (payload part : pyval) : Prop :=
  (exists d pre post,
      payload = PDict d /\
      dict_lookup "parts" d = Some (PList (pre ++ part :: post)) /\
      forallb is_other pre = true /\ is_text part = true)
  \/ (exists d,
      payload = PDict d /\ dict_lookup "parts" d = None /\
      part = payload /\ is_text part = true).

(** ** The listed messages that are fetched and decoded without error *)

Section Fetched.
Context {P : Platform}.

(** The id and the record of a listed message whose fetch and decoding
    both succeed. *)
Definition fetch_ok (message : pyval) : option (pyval * Email) :=
  match getitem message "id" with
  | Ok id =>
      match execute (ReqGet id) with
      | Ok msg =>
          match _parse_email msg with
          | Ok email_data => Some (id, email_data)
          | Raise _ => None
          end
      | Raise _ => None
      end
  | Raise _ => None
  end.

Fixpoint fetch_prefix (messages : list pyval) : option (list (pyval * Email)) :=
  match messages with
  | [] => Some []
  | message :: rest =>
      match fetch_ok message, fetch_prefix rest with
      | Some x, Some xs => Some (x :: xs)
      | _, _ => None
      end
  end.

(** The get requests made for them. *)
Definition get_requests (fetched : list (pyval * Email)) : list request :=
  map (fun x => ReqGet (fst x)) fetched.

(** A listed message stops the loop with [ex]: its fetch raises [ex],
    or its fetch succeeds and decoding the answer raises [ex]. *)
Definition stops_with (message id : pyval) (ex : exn) : Prop :=
  getitem message "id" = Ok id
  /\ (execute (ReqGet id) = Raise ex
      \/ exists msg, execute (ReqGet id) = Ok msg /\ _parse_email msg = Raise ex).

End Fetched.

(** ** Values for the examples *)

(** A part as the remote API gives it. *)
Definition api_part (mime_type data : string) : pyval :=
  PDict [("mimeType", PStr mime_type);
         ("body", PDict [("size", PInt 0); ("data", PStr data)])].

Definition plain_hi : pyval := api_part "text/plain" "SGk=".
Definition html_hi : pyval := api_part "text/html" "PGI-SGk8L2I-".

Definition api_multipart (parts : list pyval) : pyval :=
  PDict [("mimeType", PStr "multipart/alternative");
         ("headers", PList [PDict [("name", PStr "Subject"); ("value", PStr "Greeting")]]);
         ("body", PDict [("size", PInt 0)]);
         ("parts", PList parts)].

Definition api_message (id : string) (payload : pyval) : pyval :=
  PDict [("id", PStr id); ("threadId", PStr "t1"); ("snippet", PStr "Hi");
         ("payload", payload)].

(** A stand-in for the serializer of the [email] package: the header
    lines, an empty line, the text of a single-part message. *)
Definition sample_as_bytes (m : Message) : outcome string :=
  Ok (String.concat ""
        (map (fun h => fst h ++ ": " ++ snd h ++ String "010" "") (msg_headers m))
      ++ String "010" ""
      ++ match msg_payload m with
         | TextPayload t => t
         | Multipart _ => ""
         end).

Definition hi_email : Email :=
  mkEmail (PStr "m1") (PStr "t1") (PStr "Hi") PNone PNone PNone PNone "Hi" false.

Definition listed (id : string) : pyval := PDict [("id", PStr id)].

(** A remote mailbox that lists m1 and m2, serves m1 and fails on m2. *)
Definition flaky_execute (r : request) : outcome pyval :=
  match r with
  | ReqList _ _ =>
      Ok (PDict [("messages", PList [listed "m1"; listed "m2"])])
  | ReqGet (PStr "m1") => Ok (api_message "m1" (api_part "text/plain" "SGk="))
  | ReqGet _ => Raise (HttpError 500 "Backend Error")
  | ReqSend _ => Ok (PDict [("id", PStr "s1"); ("threadId", PStr "T1")])
  | ReqModify _ _ => Ok (PDict [])
  | ReqProfile => Ok (PDict [])
  end.

Definition flaky_platform : Platform :=
  {| execute := flaky_execute;
     as_bytes := sample_as_bytes;
     str_exn := fun _ => "HttpError";
     date_since := fun _ => Ok "2025/01/01" |}.

(** A remote mailbox that lists m1 and m2, where m1 has a body that is
    not base64. *)
Definition garbled_execute (r : request) : outcome pyval :=
  match r with
  | ReqList _ _ =>
      Ok (PDict [("messages", PList [listed "m1"; listed "m2"])])
  | ReqGet (PStr "m1") => Ok (api_message "m1" (api_part "text/plain" "A"))
  | ReqGet _ => Ok (api_message "m2" (api_part "text/plain" "SGk="))
  | _ => Ok (PDict [])
  end.

Definition garbled_platform : Platform :=
  {| execute := garbled_execute;
     as_bytes := sample_as_bytes;
     str_exn := fun _ => "HttpError";
     date_since := fun _ => Ok "2025/01/01" |}.

Definition expired_credentials : Credentials :=
  mkCredentials false true (Some "1//refresh") "{token: old}".

Definition valid_credentials : Credentials :=
  mkCredentials true false (Some "1//refresh") "{token: new}".

(** Libraries and servers for the examples: the stored token is
    [stored], a refresh gives [refreshed]. *)
Definition sample_auth (stored : Credentials) (refreshed : outcome Credentials)
    : AuthPlatform :=
  {| from_authorized_user_file := fun _ => Ok stored;
     refresh := fun _ => refreshed;
     from_client_secrets_file := fun _ => Ok tt;
     run_local_server := fun _ => Raise (OtherError "OSError");
     authorization_url := fun _ => "https://accounts.google.com/o/oauth2/auth";
     fetch_token := fun _ _ => Ok valid_credentials;
     build := fun _ => Ok tt;
     credentials_path := "/home/user/.claude/gmail/credentials.json";
     str_auth_exn := fun _ => "error" |}.

(** Libraries and servers that refuse every authorization code. *)
Definition refusing_auth : AuthPlatform :=
  {| from_authorized_user_file := fun _ => Ok expired_credentials;
     refresh := fun _ => Raise (RefreshError "invalid_grant");
     from_client_secrets_file := fun _ => Ok tt;
     run_local_server := fun _ => Raise (OtherError "OSError");
     authorization_url := fun _ => "https://accounts.google.com/o/oauth2/auth";
     fetch_token := fun _ _ => Raise (OtherError "InvalidGrantError");
     build := fun _ => Ok tt;
     credentials_path := "/home/user/.claude/gmail/credentials.json";
     str_auth_exn := fun _ => "error" |}.

(** Libraries where the stored token is valid and the build of the
    client raises. *)
Definition broken_build_auth : AuthPlatform :=
  {| from_authorized_user_file := fun _ => Ok valid_credentials;
     refresh := fun _ => Raise (RefreshError "invalid_grant");
     from_client_secrets_file := fun _ => Ok tt;
     run_local_server := fun _ => Raise (OtherError "OSError");
     authorization_url := fun _ => "https://accounts.google.com/o/oauth2/auth";
     fetch_token := fun _ _ => Ok valid_credentials;
     build := fun _ => Raise (OtherError "UnknownApiNameOrVersion");
     credentials_path := "/home/user/.claude/gmail/credentials.json";
     str_auth_exn := fun _ => "error" |}.

(** Libraries where the stored token is neither valid nor refreshable
    and the consent flow of the local server succeeds. *)
Definition consenting_auth : AuthPlatform :=
  {| from_authorized_user_file := fun _ => Ok (mkCredentials false false None "{token: stale}");
     refresh := fun _ => Raise (RefreshError "invalid_grant");
     from_client_secrets_file := fun _ => Ok tt;
     run_local_server := fun _ => Ok valid_credentials;
     authorization_url := fun _ => "https://accounts.google.com/o/oauth2/auth";
     fetch_token := fun _ _ => Ok valid_credentials;
     build := fun _ => Ok tt;
     credentials_path := "/home/user/.claude/gmail/credentials.json";
     str_auth_exn := fun _ => "error" |}.

Definition stored_world : auth_world :=
  mkAuthWorld (Some "{token: old}") (Some "{installed: {}}") None [] [].

(** ** All bytes, to settle facts about one or two bytes by evaluation *)

(** What the decoder has to find in the character of a 6-bit value: the
    two url-safe maps undo each other on it, it is not the padding
    character, and the decoding table gives the value back. *)
Definition char_ok (v : N) : bool :=
  let ch := Base64.urlsafe_decode_char (Base64.urlsafe_encode_char (Base64.b2a_char v)) in
  Ascii.eqb ch (Base64.b2a_char v)
  && negb (N_of_ascii ch =? 61)%N
  && (Base64.table_a2b (N_of_ascii ch) =? v)%N
  && negb (64 <=? v)%N.


Definition all_ascii : list ascii := map ascii_of_nat (seq 0 256).

Definition forall_ascii (p : ascii -> bool) : bool := forallb p all_ascii.

(** ** The rest of the gateway and of the command line *)

(** The dict [get_profile_info] returns. *)
Record Profile : Type := mkProfile {
  profile_email : pyval;
  profile_messages_total : pyval;
  profile_threads_total : pyval
}.

(** [str()] of a value inside an f-string of [main]. *)
Class Console : Type := {
  str_value : pyval -> string
}.

Section Commands.
Context {P : Platform} {C : Console}.

(** [GmailAPI.get_profile_info]; [None] is the failure result. *)
Definition get_profile_info : ST world (option Profile) :=
  try_except_HttpError
    (profile ← call ReqProfile;
     email ← lift (getitem profile "emailAddress");
     messages_total ← lift (getitem profile "messagesTotal");
     threads_total ← lift (getitem profile "threadsTotal");
     mret (Some (mkProfile email messages_total threads_total)))
    (fun error =>
       _ ← print ("❌ Error getting profile: " ++ str_exn error);
       mret None).

(** The [send] command of [main] (source lines 382 to 400); the result
    is the exit status.  The command has no option for a reply id. *)
Definition main_send (to subject body : option string) (html : bool) : ST world Z :=
  if negb (truthy to) || negb (truthy subject) || negb (truthy body) then
    _ ← print "❌ Missing required arguments: --to, --subject, --body";
    mret 1
  else
    result ← send_email (default "" to) (default "" subject) (default "" body) html None;
    match result with
    | SendOk message_id thread_id =>
        _ ← print "✅ Email sent successfully!";
        _ ← print ("   Message ID: " ++ str_value message_id);
        _ ← print ("   Thread ID: " ++ str_value thread_id);
        mret 0
    | SendFailed error =>
        _ ← print ("❌ Failed to send email: " ++ error);
        mret 1
    end.

(** The [mark-read] command of [main] (source lines 402 to 411). *)
Definition main_mark_read (message_id : option string) : ST world Z :=
  if negb (truthy message_id) then
    _ ← print "❌ Missing required argument: --message-id";
    mret 1
  else
    done ← mark_as_read (default "" message_id);
    if done : bool then
      _ ← print ("✅ Email marked as read: " ++ default "" message_id);
      mret 0
    else
      _ ← print "❌ Failed to mark email as read";
      mret 1.

End Commands.

Section AuthUrl.
Context {P : AuthPlatform}.

(** [flow.authorization_url(prompt='consent')] with the redirect URI
    set to http://localhost, as the [auth-url] command asks for it. *)
Variable consent_url : string -> string.

(** The [auth-url] command of [main] (source lines 421 to 437). *)
Definition auth_url : ST auth_world Z :=
  secrets ← read_secrets_file;
  match secrets with
  | None => _ ← auth_print "❌ Gmail credentials not found!"; mret 1
  | Some content =>
      _ ← lift (from_client_secrets_file content);
      _ ← auth_print "🌐 Manual OAuth Setup:";
      _ ← auth_print ("1. Go to: " ++ consent_url content);
      _ ← auth_print "2. Authorize the application";
      _ ← auth_print "3. Copy the authorization code from the URL";
      _ ← auth_print "4. Run: ./lib/gmail-fetch.sh auth-code --code <AUTHORIZATION_CODE>";
      mret 0
  end.

End AuthUrl.

(** ** What the header loop computes *)

(** A header entry the loop reads without error: a dict with a str
    under name and with a value. *)
Definition well_formed_header (header : pyval) : bool :=
  match getitem header "name", getitem header "value" with
  | Ok (PStr _), Ok _ => true
  | _, _ => false
  end.

(** The header is called [key], letter case apart. *)
Definition header_named (key : string) (header : pyval) : bool :=
  match getitem header "name" with
  | Ok (PStr name) => String.eqb (lower name) key
  | _ => false
  end.

Definition header_value (header : pyval) : pyval :=
  match getitem header "value" with
  | Ok v => v
  | Raise _ => PNone
  end.

(** The value of the last header called [key], [current] when there is
    none. *)
Fixpoint last_header (key : string) (headers : list pyval) (current : pyval) : pyval :=
  match headers with
  | [] => current
  | header :: rest =>
      last_header key rest (if header_named key header then header_value header else current)
  end.

(** More values for the examples. *)
Definition sample_console : Console := {| str_value := fun _ => "value" |}.

Definition nested_payload : pyval :=
  PDict [("mimeType", PStr "multipart/mixed");
         ("body", PDict [("size", PInt 0)]);
         ("parts", PList [api_multipart [plain_hi; html_hi];
                          PDict [("mimeType", PStr "application/pdf");
                                 ("body", PDict [("attachmentId", PStr "a1")])]])].

(** A text part with an empty body, as the remote API gives it. *)
Definition empty_text_part : pyval :=
  PDict [("mimeType", PStr "text/plain"); ("body", PDict [("size", PInt 0)])].

Definition api_header (name value : string) : pyval :=
  PDict [("name", PStr name); ("value", PStr value)].

Definition hello_email : Email :=
  mkEmail (PStr "m2") (PStr "t1") (PStr "Hi") PNone PNone PNone PNone "Hello" false.

(** A remote mailbox that lists m1 and m2 and serves both. *)
Definition steady_execute (r : request) : outcome pyval :=
  match r with
  | ReqList _ _ => Ok (PDict [("messages", PList [listed "m1"; listed "m2"])])
  | ReqGet (PStr "m1") => Ok (api_message "m1" (api_part "text/plain" "SGk="))
  | ReqGet _ => Ok (api_message "m2" (api_part "text/html" "SGVsbG8="))
  | ReqSend _ => Ok (PDict [("id", PStr "s1")])
  | ReqModify _ _ => Ok (PDict [])
  | ReqProfile =>
      Ok (PDict [("emailAddress", PStr "a@b.c"); ("messagesTotal", PInt 7);
                 ("threadsTotal", PInt 3)])
  end.

Definition steady_platform : Platform :=
  {| execute := steady_execute;
     as_bytes := sample_as_bytes;
     str_exn := fun _ => "HttpError";
     date_since := fun _ => Ok "2025/01/01" |}.

(** A clock for which every look-back is out of the range of dates, over
    a remote mailbox that serves m1 and m2. *)
Definition overflow_platform : Platform :=
  {| execute := steady_execute;
     as_bytes := sample_as_bytes;
     str_exn := fun _ => "HttpError";
     date_since := fun _ => Raise OverflowError |}.

(** A remote mailbox that answers every call with an HttpError. *)
Definition down_platform : Platform :=
  {| execute := fun _ => Raise (HttpError 503 "Service Unavailable");
     as_bytes := sample_as_bytes;
     str_exn := fun _ => "HttpError";
     date_since := fun _ => Ok "2025/01/01" |}.

(** The request [send_email] builds for a plain message to a@b.c with
    subject Hi and body Hello, under the stand-in serializer. *)
Definition hello_request : pyval :=
  match send_email_request (P := steady_platform) "a@b.c" "Hi" "Hello" false None with
  | Ok request => request
  | Raise _ => PNone
  end.

(** A remote mailbox that answers every call with an empty dict. *)
Definition empty_platform : Platform :=
  {| execute := fun _ => Ok (PDict []);
     as_bytes := sample_as_bytes;
     str_exn := fun _ => "HttpError";
     date_since := fun _ => Ok "2025/01/01" |}.

(** A remote mailbox that lists m1, m2 and m3, where the body of m2 is
    not base64. *)
Definition late_garbled_execute (r : request) : outcome pyval :=
  match r with
  | ReqList _ _ => Ok (PDict [("messages", PList [listed "m1"; listed "m2"; listed "m3"])])
  | ReqGet (PStr "m2") => Ok (api_message "m2" (api_part "text/plain" "A"))
  | ReqGet _ => Ok (api_message "m1" (api_part "text/plain" "SGk="))
  | _ => Ok (PDict [])
  end.

Definition late_garbled_platform : Platform :=
  {| execute := late_garbled_execute;
     as_bytes := sample_as_bytes;
     str_exn := fun _ => "HttpError";
     date_since := fun _ => Ok "2025/01/01" |}.

(** A message with headers in mixed case, one of them twice, and the
    record it decodes to. *)
Definition hi_headers : list pyval :=
  [api_header "SUBJECT" "First"; api_header "X-Mailer" "Mail"; api_header "From" "a@b.c";
   api_header "subject" "Second"].

Definition hi_headers_message : pyval :=
  api_message "m1"
    (PDict [("mimeType", PStr "text/plain"); ("headers", PList hi_headers);
            ("body", PDict [("size", PInt 2); ("data", PStr "SGk=")])]).

Definition hi_subject_email : Email :=
  mkEmail (PStr "m1") (PStr "t1") (PStr "Hi") PNone (PStr "a@b.c") PNone (PStr "Second")
    "Hi" false.

(** ** Worlds and console lines for the statements about credentials *)

Definition add_events (w : auth_world) (evs : list auth_event) : auth_world :=
  mkAuthWorld (token_file w) (secrets_file w) (service w) (events w ++ evs) (auth_stdout w).

Definition add_lines (w : auth_world) (lines : list string) : auth_world :=
  mkAuthWorld (token_file w) (secrets_file w) (service w) (events w) (auth_stdout w ++ lines).

Section AuthLines.
Context {P : AuthPlatform}.

(** What [authenticate] prints when credentials.json is missing. *)
Definition missing_credentials_lines : list string :=
  ["❌ Gmail credentials not found!";
   "Please download 'credentials.json' from Google Cloud Console and place it at:";
   "   " ++ credentials_path;
   String "010" "Setup Guide:";
   "1. Go to https://console.cloud.google.com/";
   "2. Create/select project";
   "3. Enable Gmail API";
   "4. Create OAuth 2.0 credentials (Desktop application)";
   "5. Download credentials.json"].

(** What [authenticate] prints when the local server cannot run. *)
Definition manual_setup_lines (secrets : string) : list string :=
  ["❌ Local server authentication failed (headless environment)";
   "📋 Manual OAuth setup required:";
   "1. Go to: " ++ authorization_url secrets;
   "2. Authorize the application";
   "3. Copy the authorization code";
   "4. Run: ./lib/gmail-fetch.sh auth-code <CODE>"].

(** No usable token is stored: there is no token file, or the stored
    Credential is not valid and cannot be refreshed. *)
Definition needs_consent (w : auth_world) : Prop :=
  match token_file w with
  | None => True
  | Some content =>
      exists c, from_authorized_user_file content = Ok c
                /\ cred_valid c = false
                /\ cred_expired c && truthy (cred_refresh_token c) = false
  end.

(** What [authenticate] does with the outcome of the consent path. *)
Definition after_consent (w : auth_world) : outcome bool * auth_world :=
  match consent w with
  | (Ok (Some c'), w1) => (_ ← save_credentials c'; build_service c') w1
  | (Ok None, w1) => (Ok false, w1)
  | (Raise e, w1) => (Raise e, w1)
  end.

End AuthLines.

(** A request that only reads a message. *)
Definition is_get (r : request) : bool :=
  match r with
  | ReqGet _ => true
  | _ => false
  end.

(** ** The remote API's view of a message that was sent *)

(** The text of a header value up to its first semicolon. *)
Fixpoint before_semicolon (s : string) : string :=
  match s with
  | EmptyString => EmptyString
  | String c s' =>
      if Ascii.eqb c ";" then EmptyString else String c (before_semicolon s')
  end.

(** The content type a message declares, without its parameters. *)
Definition mime_type_of (m : Message) : string :=
  match msg_get m "Content-Type" with
  | Some value => before_semicolon value
  | None => "text/plain"
  end.

Definition header_entry (h : string * string) : pyval :=
  PDict [("name", PStr (fst h)); ("value", PStr (snd h))].

(** Modelled from the spec: the wire-format MimePart the remote API gives
    for a message (section 3: a possibly-nested tree with a content-type,
    and either a leaf body of base64url-encoded bytes or child parts;
    section 4.2: headers read by name), which is not code of the
    repository.  A leaf holds the url-safe base64 of the UTF-8 bytes of
    its text. *)
Fixpoint api_payload (m : Message) : pyval :=
  match m with
  | mkMessage headers (TextPayload text) =>
      PDict [("mimeType", PStr (mime_type_of m));
             ("headers", PList (map header_entry headers));
             ("body", PDict [("size", PInt (Z.of_nat (String.length text)));
                             ("data", PStr (Base64.urlsafe_b64encode text))])]
  | mkMessage headers (Multipart parts) =>
      PDict [("mimeType", PStr (mime_type_of m));
             ("headers", PList (map header_entry headers));
             ("body", PDict [("size", PInt 0)]);
             ("parts", PList (map api_payload parts))]
  end.

(** Modelled from the spec: the answer of get-message(id) (section 6) for
    a message that was sent, an id, a thread id and a snippet around the
    MimePart tree of the message. *)
Definition api_resource (id thread_id : pyval) (snippet : string) (m : Message) : pyval :=
  PDict [("id", id); ("threadId", thread_id); ("labelIds", PList [PStr "SENT"]);
         ("snippet", PStr snippet); ("payload", api_payload m)].

(** A remote mailbox that takes every message sent as s1 in thread T1
    and gives back, for s1, the HTML message to a@b.c with subject Hi and
    body Hello. *)
Definition loopback_execute (r : request) : outcome pyval :=
  match r with
  | ReqSend _ => Ok (PDict [("id", PStr "s1"); ("threadId", PStr "T1")])
  | ReqGet (PStr "s1") =>
      Ok (api_resource (PStr "s1") (PStr "T1") "Hello"
            (build_message "a@b.c" "Hi" "Hello" true None))
  | ReqGet _ => Raise (HttpError 404 "Not Found")
  | _ => Ok (PDict [])
  end.


(** A serializer that refuses a header value with a line feed in it, as
    the [email] package does, and otherwise writes like the stand-in. *)
Definition has_line_feed (s : string) : bool :=
  existsb (Ascii.eqb "010") (list_ascii_of_string s).

(** A reply id that carries a second header line. *)
Definition injected_reply_id : string := "T1" ++ String "010" "Bcc: x@y.z".

Definition strict_as_bytes (m : Message) : outcome string :=
  if existsb (fun h => has_line_feed (snd h)) (msg_headers m)
  then Raise (OtherError "HeaderWriteError")
  else sample_as_bytes m.

Definition strict_platform : Platform :=
  {| execute := loopback_execute;
     as_bytes := strict_as_bytes;
     str_exn := fun _ => "HttpError";
     date_since := fun _ => Ok "2025/01/01" |}.

(** * Properties *)

Local Open Scope list_scope.

(** ** Facts about bytes, by evaluation over all of them *)

Lemma in_all_ascii (a : ascii) : In a all_ascii.
Proof.
  unfold all_ascii. rewrite <- (ascii_nat_embedding a).
  apply in_map, in_seq. pose proof (nat_ascii_bounded a). lia.
Qed.

Lemma forall_ascii_spec (p : ascii -> bool) :
  forall_ascii p = true -> forall a, p a = true.
Proof.
  unfold forall_ascii. rewrite forallb_forall. intros H a. apply H, in_all_ascii.
Qed.

Lemma forall_ascii2_spec (p : ascii -> ascii -> bool) :
  forall_ascii (fun a => forall_ascii (p a)) = true -> forall a b, p a b = true.
Proof.
  intros H a b. apply (forall_ascii_spec (p a)). apply (forall_ascii_spec _ H).
Qed.

Module Base64Facts.
Import Base64.

Lemma char_ok_sextet1 a : char_ok (sextet1 a) = true.
Proof. revert a. apply forall_ascii_spec. vm_compute. reflexivity. Qed.
Lemma char_ok_sextet2 a b : char_ok (sextet2 a b) = true.
Proof. revert a b. apply forall_ascii2_spec. vm_compute. reflexivity. Qed.
Lemma char_ok_sextet3 a b : char_ok (sextet3 a b) = true.
Proof. revert a b. apply forall_ascii2_spec. vm_compute. reflexivity. Qed.
Lemma char_ok_sextet4 a : char_ok (sextet4 a) = true.
Proof. revert a. apply forall_ascii_spec. vm_compute. reflexivity. Qed.
Lemma char_ok_last2 a : char_ok (last2 a) = true.
Proof. revert a. apply forall_ascii_spec. vm_compute. reflexivity. Qed.
Lemma char_ok_last4 a : char_ok (last4 a) = true.
Proof. revert a. apply forall_ascii_spec. vm_compute. reflexivity. Qed.

(** The bytes the decoder puts together are the bytes that were encoded. *)
Lemma first_byte a b :
  byte (N.lor (N.shiftl (sextet1 a) 2) (N.shiftr (sextet2 a b) 4)) = a.
Proof.
  apply Ascii.eqb_eq. revert a b. apply forall_ascii2_spec. vm_compute. reflexivity.
Qed.
Lemma first_byte_last a :
  byte (N.lor (N.shiftl (sextet1 a) 2) (N.shiftr (last2 a) 4)) = a.
Proof. apply Ascii.eqb_eq. revert a. apply forall_ascii_spec. vm_compute. reflexivity. Qed.
Lemma carry2 a b : N.land (sextet2 a b) 15 = N.shiftr (N_of_ascii b) 4.
Proof. apply N.eqb_eq. revert a b. apply forall_ascii2_spec. vm_compute. reflexivity. Qed.
Lemma second_byte b c :
  byte (N.lor (N.shiftl (N.shiftr (N_of_ascii b) 4) 4) (N.shiftr (sextet3 b c) 2)) = b.
Proof.
  apply Ascii.eqb_eq. revert b c. apply forall_ascii2_spec. vm_compute. reflexivity.
Qed.
Lemma second_byte_last b :
  byte (N.lor (N.shiftl (N.shiftr (N_of_ascii b) 4) 4) (N.shiftr (last4 b) 2)) = b.
Proof. apply Ascii.eqb_eq. revert b. apply forall_ascii_spec. vm_compute. reflexivity. Qed.
Lemma carry3 b c : N.land (sextet3 b c) 3 = N.shiftr (N_of_ascii c) 6.
Proof. apply N.eqb_eq. revert b c. apply forall_ascii2_spec. vm_compute. reflexivity. Qed.
Lemma third_byte c :
  byte (N.lor (N.shiftl (N.shiftr (N_of_ascii c) 6) 6) (sextet4 c)) = c.
Proof. apply Ascii.eqb_eq. revert c. apply forall_ascii_spec. vm_compute. reflexivity. Qed.

Lemma char_ok_inv v :
  char_ok v = true ->
  urlsafe_decode_char (urlsafe_encode_char (b2a_char v)) = b2a_char v
  /\ (N_of_ascii (b2a_char v) =? 61)%N = false
  /\ table_a2b (N_of_ascii (b2a_char v)) = v
  /\ (64 <=? v)%N = false.
Proof.
  unfold char_ok. rewrite !andb_true_iff, !negb_true_iff.
  intros [[[H1 H2] H3] H4]. apply Ascii.eqb_eq in H1. rewrite H1 in H2, H3.
  apply N.eqb_eq in H3. auto.
Qed.

(** One turn of the decoding loop on the character of a 6-bit value. *)
Lemma a2b_loop_data v rest q l p out :
  char_ok v = true ->
  a2b_loop (String (b2a_char v) rest) q l p out =
  match q with
  | 0%nat => a2b_loop rest 1 v 0 out
  | 1%nat =>
      a2b_loop rest 2 (N.land v 15) 0
        (out ++ String (byte (N.lor (N.shiftl l 2) (N.shiftr v 4))) "")
  | 2%nat =>
      a2b_loop rest 3 (N.land v 3) 0
        (out ++ String (byte (N.lor (N.shiftl l 4) (N.shiftr v 2))) "")
  | _ =>
      a2b_loop rest 0 0 0 (out ++ String (byte (N.lor (N.shiftl l 6) v)) "")
  end.
Proof.
  intros H. apply char_ok_inv in H as (_ & H61 & Htab & H64).
  cbn [a2b_loop]. rewrite H61. cbv zeta. rewrite Htab, H64. reflexivity.
Qed.

Lemma translate_data v rest :
  char_ok v = true ->
  translate urlsafe_decode_char (translate urlsafe_encode_char (String (b2a_char v) rest)) =
  String (b2a_char v) (translate urlsafe_decode_char (translate urlsafe_encode_char rest)).
Proof.
  intros H. apply char_ok_inv in H as (Hc & _). cbn [translate]. rewrite Hc. reflexivity.
Qed.

Lemma append_snoc (out : string) (a : ascii) (r : string) :
  ((out ++ String a "") ++ r)%string = (out ++ String a r)%string.
Proof.
  induction out as [|c out IH]; [reflexivity|].
  change (String c ((out ++ String a "") ++ r) = String c (out ++ String a r))%string.
  now rewrite IH.
Qed.

Lemma append_empty (out : string) : (out ++ "")%string = out.
Proof.
  induction out as [|c out IH]; [reflexivity|].
  change (String c (out ++ "") = String c out)%string. now rewrite IH.
Qed.

(** Induction over a byte string three bytes at a time. *)
Lemma string_triples_ind (Q : string -> Prop) :
  Q "" ->
  (forall a, Q (String a "")) ->
  (forall a b, Q (String a (String b ""))) ->
  (forall a b c r, Q r -> Q (String a (String b (String c r)))) ->
  forall s, Q s.
Proof.
  intros H0 H1 H2 H3 s.
  assert (Q s /\ (forall a, Q (String a s)) /\ (forall a b, Q (String a (String b s))))
    as [H _]; [|exact H].
  induction s as [|c r (IH0 & IH1 & IH2)].
  - auto.
  - repeat split; auto.
Qed.

Ltac decode_turn :=
  first
    [ rewrite translate_data
        by first [apply char_ok_sextet1 | apply char_ok_sextet2 | apply char_ok_sextet3
                 | apply char_ok_sextet4 | apply char_ok_last2 | apply char_ok_last4]
    | rewrite a2b_loop_data
        by first [apply char_ok_sextet1 | apply char_ok_sextet2 | apply char_ok_sextet3
                 | apply char_ok_sextet4 | apply char_ok_last2 | apply char_ok_last4] ].

Lemma a2b_loop_b2a (s out : string) :
  a2b_loop (translate urlsafe_decode_char (translate urlsafe_encode_char (b2a_base64 s)))
    0 0 0 out = Ok (out ++ s)%string.
Proof.
  revert out. induction s as [|a|a b|a b c r IH] using string_triples_ind; intros out.
  - cbn. now rewrite append_empty.
  - cbn [b2a_base64]. repeat decode_turn.
    rewrite first_byte_last. reflexivity.
  - cbn [b2a_base64]. repeat decode_turn.
    rewrite first_byte, carry2, second_byte_last. cbn.
    now rewrite append_snoc.
  - cbn [b2a_base64]. repeat decode_turn.
    rewrite first_byte, carry2, second_byte, carry3, third_byte, IH.
    now rewrite !append_snoc.
Qed.

Lemma is_ascii_b2a (s : string) : is_ascii (urlsafe_b64encode s) = true.
Proof.
  assert (Hch : forall v, char_ok v = true ->
            (N_of_ascii (urlsafe_encode_char (b2a_char v)) <? 128)%N = true).
  { intros v Hv. apply char_ok_inv in Hv as (_ & _ & _ & H64). apply N.leb_gt in H64.
    assert (Hall : forallb (fun v => (N_of_ascii (urlsafe_encode_char (b2a_char v)) <? 128)%N)
                     (map N.of_nat (seq 0 64)) = true) by (vm_compute; reflexivity).
    rewrite forallb_forall in Hall. apply Hall.
    rewrite <- (N2Nat.id v). apply in_map, in_seq. lia. }
  unfold urlsafe_b64encode.
  induction s as [|a|a b|a b c r IH] using string_triples_ind;
    cbn [b2a_base64 translate is_ascii].
  - reflexivity.
  - rewrite !Hch by first [apply char_ok_sextet1 | apply char_ok_last2]. reflexivity.
  - rewrite !Hch by first [apply char_ok_sextet1 | apply char_ok_sextet2 | apply char_ok_last4].
    reflexivity.
  - rewrite !Hch by first [apply char_ok_sextet1 | apply char_ok_sextet2
                          | apply char_ok_sextet3 | apply char_ok_sextet4].
    rewrite IH. reflexivity.
Qed.

End Base64Facts.

(** Decoding the url-safe base64 of a byte string gives the byte string. *)
Lemma urlsafe_b64_roundtrip (bytes : string) :
  Base64.urlsafe_b64decode (Base64.urlsafe_b64encode bytes) = Ok bytes.
Proof.
  unfold Base64.urlsafe_b64decode. rewrite Base64Facts.is_ascii_b2a.
  unfold Base64.a2b_base64, Base64.urlsafe_b64encode.
  now rewrite Base64Facts.a2b_loop_b2a.
Qed.

(** ** MessageTranscoder: which part gives the body *)

Ltac unfold_bind :=
  unfold mbind, outcome_bind, obind, mret, outcome_ret in *.

Lemma is_other_inv (part : pyval) :
  is_other part = true ->
  exists mt, getitem part "mimeType" = Ok mt
             /\ py_eq_str mt "text/plain" = false /\ py_eq_str mt "text/html" = false.
Proof.
  unfold is_other. destruct (getitem part "mimeType") as [mt|]; [|discriminate].
  rewrite andb_true_iff, !negb_true_iff. intros [H1 H2]. eauto.
Qed.

Lemma body_of_parts_skip (pre rest : list pyval) :
  forallb is_other pre = true -> body_of_parts (pre ++ rest) = body_of_parts rest.
Proof.
  induction pre as [|p pre IH]; [reflexivity|].
  cbn [forallb]. rewrite andb_true_iff. intros [Hp Hpre].
  apply is_other_inv in Hp as (mt & Hmt & Hplain & Hhtml).
  change ((p :: pre) ++ rest)%list with (p :: (pre ++ rest))%list.
  cbn [body_of_parts]. unfold_bind. rewrite Hmt, Hplain, Hhtml. auto.
Qed.

Lemma text_part_taken (part : pyval) (k : outcome string) :
  is_text part = true ->
  (mt ← getitem part "mimeType";
   if py_eq_str mt "text/plain" then part_text part
   else mt' ← getitem part "mimeType";
        if py_eq_str mt' "text/html" then part_text part else k) = part_text part.
Proof.
  unfold is_text, mime_type_is. unfold_bind.
  destruct (getitem part "mimeType") as [mt|]; [|discriminate].
  destruct (py_eq_str mt "text/plain"); [reflexivity|].
  cbn. intros ->. reflexivity.
Qed.

Lemma body_of_parts_text (part : pyval) (post : list pyval) :
  is_text part = true -> body_of_parts (part :: post) = part_text part.
Proof. intros H. cbn [body_of_parts]. now apply text_part_taken. Qed.

Lemma chooses_body (payload part : pyval) :
  chooses payload part -> _get_message_body payload = part_text part.
Proof.
  intros [(d & pre & post & -> & Hparts & Hpre & Htext) | (d & -> & Hparts & -> & Htext)].
  - unfold _get_message_body, getitem. rewrite Hparts. unfold_bind. cbn [py_iter].
    rewrite body_of_parts_skip by assumption. now apply body_of_parts_text.
  - unfold _get_message_body. rewrite Hparts. now apply text_part_taken.
Qed.

Lemma parse_email_unfold (msg p : pyval) (e0 : Email) :
  parse_headers msg = Ok e0 -> getitem msg "payload" = Ok p ->
  _parse_email msg = (body ← _get_message_body p; Ok (set_body e0 body)).
Proof. intros H0 Hp. unfold _parse_email. unfold_bind. now rewrite H0, Hp. Qed.

Lemma scan_headers_is_html (hs : list pyval) (e e' : Email) :
  scan_headers hs e = Ok e' -> email_is_html e' = email_is_html e.
Proof.
  revert e. induction hs as [|h hs IH]; intros e; cbn [scan_headers].
  - now intros [= ->].
  - unfold_bind. destruct (getitem h "name") as [n|]; [|discriminate].
    destruct (py_lower n) as [name|]; [|discriminate].
    repeat match goal with
           | |- context [if ?b then _ else _] => destruct b
           end;
      try (destruct (getitem h "value") as [v|]; [|discriminate]);
      intros H; apply IH in H; exact H.
Qed.

(** The record [_parse_email] returns never has its is_html field set. *)
Lemma parse_email_is_html (msg : pyval) (e : Email) :
  _parse_email msg = Ok e -> email_is_html e = false.
Proof.
  unfold _parse_email, parse_headers. unfold_bind.
  destruct (getitem msg "payload") as [p|]; [|discriminate].
  destruct (get_default p "headers" (PList [])) as [hd|]; [|discriminate].
  destruct (getitem msg "id") as [id|]; [|discriminate].
  destruct (getitem msg "threadId") as [tid|]; [|discriminate].
  destruct (getitem msg "snippet") as [sn|]; [|discriminate].
  destruct (py_iter hd) as [hs|]; [|discriminate].
  destruct (scan_headers hs _) as [e0|] eqn:Hscan; [|discriminate].
  destruct (_get_message_body p) as [body|]; [|discriminate].
  intros [= <-]. apply scan_headers_is_html in Hscan. exact Hscan.
Qed.

(** The exceptions of [urlsafe_b64decode(data).decode('utf-8')] on a str. *)
Lemma decode_data_errors (data : string) (ex : exn) :
  decode_data (PStr data) = Raise ex ->
  ex = BinasciiError \/ ex = ValueError \/ ex = UnicodeDecodeError.
Proof.
  assert (Hloop : forall s q l p out e, Base64.a2b_loop s q l p out = Raise e -> e = BinasciiError).
  { induction s as [|ch rest IH]; intros q l p out e; cbn [Base64.a2b_loop].
    - destruct q; [discriminate | now intros [= <-]].
    - repeat match goal with
             | |- context [if ?b then _ else _] => destruct b
             | |- context [match ?q with O => _ | S _ => _ end] => destruct q
             end; try discriminate; apply IH. }
  unfold decode_data, Base64.urlsafe_b64decode, Base64.a2b_base64, Utf8.decode. unfold_bind.
  destruct (Base64.is_ascii data).
  - destruct (Base64.a2b_loop _ _ _ _ _) as [raw|e] eqn:Hl.
    + destruct (Utf8.valid raw); [discriminate | intros [= <-]; auto].
    + intros [= <-]. apply Hloop in Hl. auto.
  - intros [= <-]. auto.
Qed.

(** C2 (amended).  For every payload with direct child parts, the body is
    that of the first child whose type is text/plain or text/html,
    whichever of the two comes first in the list of parts (the children
    before it having other types).  So a payload with one text/plain and
    one text/html child decodes to the plain text, with is_html false,
    when the plain part comes first. *)
Theorem first_text_part_gives_body (msg : pyval) (d : list (string * pyval))
    (pre : list pyval) (part : pyval) (post : list pyval) :
  getitem msg "payload" = Ok (PDict d) ->
  dict_lookup "parts" d = Some (PList (pre ++ part :: post)) ->
  forallb is_other pre = true ->
  is_text part = true ->
  _get_message_body (PDict d) = part_text part
  /\ forall e, _parse_email msg = Ok e ->
               part_text part = Ok (email_body e)
               /\ (mime_type_is part "text/plain" = true -> email_is_html e = false).
Proof.
  intros Hp Hparts Hpre Htext.
  assert (Hbody : _get_message_body (PDict d) = part_text part).
  { apply chooses_body. left. exists d, pre, post. auto. }
  split; [exact Hbody|].
  intros e He. split; [|intros _; now apply parse_email_is_html in He].
  revert He. unfold _parse_email. unfold_bind.
  destruct (parse_headers msg) as [e0|]; [|discriminate].
  rewrite Hp, Hbody. destruct (part_text part) as [body|]; [|discriminate].
  now intros [= <-].
Qed.

Lemma first_text_part_gives_body_witness :
  _get_message_body (api_multipart [plain_hi; html_hi]) = part_text plain_hi
  /\ forall e, _parse_email (api_message "m1" (api_multipart [plain_hi; html_hi])) = Ok e ->
               part_text plain_hi = Ok (email_body e)
               /\ (mime_type_is plain_hi "text/plain" = true -> email_is_html e = false).
Proof.
  refine (first_text_part_gives_body
            (api_message "m1" (api_multipart [plain_hi; html_hi])) _ [] plain_hi [html_hi]
            _ _ _ _);
    reflexivity.
Defined.

(** The payload of the scenario, plain part first, evaluated. *)
Example plain_before_html_decodes_plain :
  _parse_email (api_message "m1" (api_multipart [plain_hi; html_hi])) =
  Ok (mkEmail (PStr "m1") (PStr "t1") (PStr "Hi") PNone PNone PNone (PStr "Greeting")
        "Hi" false).
Proof. vm_compute. reflexivity. Qed.

(** C2, as stated, fails: with the text/html child before the text/plain
    child the body is the HTML text. *)
Lemma html_before_plain_counterexample :
  part_text plain_hi = Ok "Hi"
  /\ exists e, _parse_email (api_message "m1" (api_multipart [html_hi; plain_hi])) = Ok e
               /\ email_body e = "<b>Hi</b>" /\ email_body e <> "Hi".
Proof.
  split; [reflexivity|].
  eexists. split; [vm_compute; reflexivity|]. split; [reflexivity | discriminate].
Qed.

(** C3.  The single-part text/html payload with data SGVsbG8= decodes to
    the body Hello, and the record's is_html field is false. *)
Theorem html_single_part_decodes_with_is_html_false :
  _parse_email (api_message "m1" (api_part "text/html" "SGVsbG8=")) =
  Ok (mkEmail (PStr "m1") (PStr "t1") (PStr "Hi") PNone PNone PNone PNone "Hello" false).
Proof. vm_compute. reflexivity. Qed.

(** C4 (amended).  When the data of the chosen text part fails base64
    decoding or UTF-8 decoding, the exception of the decoding (binascii's
    Error, ValueError or UnicodeDecodeError, none of them an HttpError)
    is raised by [_get_message_body] and by [_parse_email]: no record is
    returned. *)
Theorem undecodable_body_raises (msg payload part : pyval) (data : string) (ex : exn) :
  getitem msg "payload" = Ok payload ->
  chooses payload part ->
  (b ← getitem part "body"; getitem b "data") = Ok (PStr data) ->
  decode_data (PStr data) = Raise ex ->
  (ex = BinasciiError \/ ex = ValueError \/ ex = UnicodeDecodeError)
  /\ is_HttpError ex = false
  /\ _get_message_body payload = Raise ex
  /\ (forall e, _parse_email msg <> Ok e)
  /\ (forall e0, parse_headers msg = Ok e0 -> _parse_email msg = Raise ex).
Proof.
  intros Hp Hch Hdata Hdec.
  assert (Hex : ex = BinasciiError \/ ex = ValueError \/ ex = UnicodeDecodeError)
    by (eapply decode_data_errors; eauto).
  assert (Hbody : _get_message_body payload = Raise ex).
  { rewrite (chooses_body _ _ Hch). unfold part_text. revert Hdata. unfold_bind.
    destruct (getitem part "body") as [b|]; [|discriminate].
    intros ->. exact Hdec. }
  repeat split; try assumption.
  - destruct Hex as [-> | [-> | ->]]; reflexivity.
  - intros e. unfold _parse_email. unfold_bind.
    destruct (parse_headers msg); [|discriminate]. now rewrite Hp, Hbody.
  - intros e0 H0. rewrite (parse_email_unfold _ _ _ H0 Hp), Hbody. reflexivity.
Qed.

Lemma undecodable_body_raises_witness :
  (BinasciiError = BinasciiError \/ BinasciiError = ValueError
   \/ BinasciiError = UnicodeDecodeError)
  /\ is_HttpError BinasciiError = false
  /\ _get_message_body (api_part "text/plain" "A") = Raise BinasciiError
  /\ (forall e, _parse_email (api_message "m1" (api_part "text/plain" "A")) <> Ok e)
  /\ (forall e0, parse_headers (api_message "m1" (api_part "text/plain" "A")) = Ok e0 ->
                 _parse_email (api_message "m1" (api_part "text/plain" "A")) = Raise BinasciiError).
Proof.
  refine (undecodable_body_raises (api_message "m1" (api_part "text/plain" "A"))
            (api_part "text/plain" "A") (api_part "text/plain" "A") "A" BinasciiError _ _ _ _).
  - reflexivity.
  - right. exists [("mimeType", PStr "text/plain");
                   ("body", PDict [("size", PInt 0); ("data", PStr "A")])].
    repeat split; reflexivity.
  - reflexivity.
  - reflexivity.
Defined.

(** C4, as stated, fails: a body that is not base64, and a body whose
    bytes are not UTF-8, make [_parse_email] raise. *)
Lemma undecodable_body_counterexample :
  _parse_email (api_message "m1" (api_part "text/plain" "A")) = Raise BinasciiError
  /\ _parse_email (api_message "m1" (api_part "text/plain" "_w==")) = Raise UnicodeDecodeError.
Proof. split; vm_compute; reflexivity. Qed.

(** ** MailboxGateway: batch reads *)

Ltac unfold_st :=
  unfold mbind, ST_bind, st_bind, mret, ST_ret, st_ret, lift, call, print,
    try_except_HttpError, try_except_Exception in *.

Section GatewayFacts.
Context {P : Platform}.

Lemma fetch_ok_inv (message id : pyval) (e : Email) :
  fetch_ok message = Some (id, e) ->
  getitem message "id" = Ok id
  /\ exists msg, execute (ReqGet id) = Ok msg /\ _parse_email msg = Ok e.
Proof.
  unfold fetch_ok. destruct (getitem message "id") as [i|]; [|discriminate].
  destruct (execute (ReqGet i)) as [msg|] eqn:Hget; [|discriminate].
  destruct (_parse_email msg) as [e'|] eqn:Hparse; [|discriminate].
  intros [= <- <-]. eauto.
Qed.

(** The loop runs through a prefix of messages that fetch and decode. *)
Lemma fetch_each_prefix (pre rest : list pyval) (fetched : list (pyval * Email))
    (acc : list Email) (w : world) :
  fetch_prefix pre = Some fetched ->
  fetch_each (pre ++ rest) acc w =
  fetch_each rest (acc ++ map snd fetched)
    (mkWorld (calls w ++ get_requests fetched) (stdout w)).
Proof.
  revert fetched acc w. induction pre as [|m pre IH]; intros fetched acc w.
  - intros [= <-]. cbn. rewrite !app_nil_r. now destruct w.
  - cbn [fetch_prefix]. destruct (fetch_ok m) as [[id e]|] eqn:Hm; [|discriminate].
    destruct (fetch_prefix pre) as [xs|]; [|discriminate].
    intros [= <-]. apply fetch_ok_inv in Hm as (Hid & msg & Hget & Hparse).
    change ((m :: pre) ++ rest)%list with (m :: (pre ++ rest))%list.
    cbn [fetch_each]. unfold_st. rewrite Hid, Hget, Hparse.
    rewrite (IH xs) by reflexivity. cbn [calls stdout map snd fst get_requests].
    unfold get_requests. now rewrite <- !app_assoc.
Qed.

Lemma fetch_each_stops (message id : pyval) (ex : exn) (rest : list pyval)
    (acc : list Email) (w : world) :
  stops_with message id ex ->
  fetch_each (message :: rest) acc w =
  (Raise ex, mkWorld (calls w ++ [ReqGet id]) (stdout w)).
Proof.
  intros [Hid [Hget | (msg & Hget & Hparse)]]; cbn [fetch_each]; unfold_st;
    rewrite Hid, Hget; [reflexivity | now rewrite Hparse].
Qed.

Lemma fetch_query_stops (q : string) (limit : Z) (results messages : pyval)
    (pre post : list pyval) (bad bad_id : pyval) (fetched : list (pyval * Email))
    (ex : exn) (w : world) :
  execute (ReqList q limit) = Ok results ->
  get_default results "messages" (PList []) = Ok messages ->
  py_iter messages = Ok (pre ++ bad :: post)%list ->
  fetch_prefix pre = Some fetched ->
  stops_with bad bad_id ex ->
  fetch_query q limit w =
  (Raise ex,
   mkWorld (calls w ++ ReqList q limit :: get_requests fetched ++ [ReqGet bad_id]) (stdout w)).
Proof.
  intros Hlist Hmsgs Hiter Hpre Hbad. unfold fetch_query. unfold_st.
  rewrite Hlist, Hmsgs, Hiter.
  rewrite (fetch_each_prefix _ _ _ _ _ Hpre), (fetch_each_stops _ _ _ _ _ _ Hbad).
  cbn [calls stdout]. now rewrite <- !app_assoc.
Qed.

(** What a batch read does when the loop stops on an HttpError. *)
Lemma batch_stops_http (q : string) (limit : Z) (status : Z) (message : string)
    (trace : list request) (w : world) :
  fetch_query q limit w = (Raise (HttpError status message), mkWorld trace (stdout w)) ->
  try_except_HttpError (fetch_query q limit) report_fetch_error w =
  (Ok [],
   mkWorld trace
     (stdout w ++ [("❌ Error fetching emails: " ++ str_exn (HttpError status message))%string])).
Proof.
  intros H. unfold try_except_HttpError. rewrite H. reflexivity.
Qed.

(** Once its date is computed, [get_emails_by_filter] is the batch read
    of its query. *)
Lemma get_emails_by_filter_run (days limit : Z) (query_filter q : string) (w : world) :
  filter_query days query_filter = Ok q ->
  get_emails_by_filter days limit query_filter w =
  try_except_HttpError (fetch_query q limit) report_fetch_error w.
Proof.
  intros H. unfold get_emails_by_filter, try_except_HttpError.
  unfold mbind at 1, ST_bind, st_bind at 1, lift. now rewrite H.
Qed.

(** What a batch read does when the loop stops on another exception. *)
Lemma batch_stops_other (q : string) (limit : Z) (ex : exn) (w w' : world) :
  fetch_query q limit w = (Raise ex, w') -> is_HttpError ex = false ->
  try_except_HttpError (fetch_query q limit) report_fetch_error w = (Raise ex, w').
Proof.
  intros H Hex. unfold try_except_HttpError. now rewrite H, Hex.
Qed.

End GatewayFacts.

(** C1 (amended).  In a batch read, when the fetch of a listed message
    fails with an HttpError (the messages listed before it having been
    fetched and decoded), the gateway does not raise: it prints one error
    line and returns the empty list.  The records decoded before the
    failure are dropped and the messages listed after it are not fetched. *)
Theorem batch_read_returns_nothing_on_fetch_error {P : Platform}
    (q : string) (limit : Z) (results messages : pyval) (pre post : list pyval)
    (bad bad_id : pyval) (fetched : list (pyval * Email)) (status : Z) (message : string)
    (w : world) :
  execute (ReqList q limit) = Ok results ->
  get_default results "messages" (PList []) = Ok messages ->
  py_iter messages = Ok (pre ++ bad :: post)%list ->
  fetch_prefix pre = Some fetched ->
  getitem bad "id" = Ok bad_id ->
  execute (ReqGet bad_id) = Raise (HttpError status message) ->
  let after :=
    (Ok [],
     mkWorld (calls w ++ ReqList q limit :: get_requests fetched ++ [ReqGet bad_id])
       (stdout w ++ [("❌ Error fetching emails: " ++ str_exn (HttpError status message))%string]))
  in
  (forall sender_filter subject_filter,
      q = unread_query sender_filter subject_filter ->
      get_unread_emails limit sender_filter subject_filter w = after)
  /\ (forall days query_filter,
      filter_query days query_filter = Ok q ->
      get_emails_by_filter days limit query_filter w = after).
Proof.
  intros Hlist Hmsgs Hiter Hpre Hid Hget after.
  assert (Hq : fetch_query q limit w =
               (Raise (HttpError status message),
                mkWorld (calls w ++ ReqList q limit :: get_requests fetched ++ [ReqGet bad_id])
                  (stdout w))).
  { eapply fetch_query_stops; eauto. split; auto. }
  split.
  - intros sf subf ->. unfold get_unread_emails. now apply batch_stops_http.
  - intros days qf Hdate. rewrite (get_emails_by_filter_run _ _ _ _ _ Hdate).
    now apply batch_stops_http.
Qed.

Lemma batch_read_returns_nothing_on_fetch_error_witness :
  (forall sender_filter subject_filter,
      "is:unread" = unread_query sender_filter subject_filter ->
      get_unread_emails (P := flaky_platform) 10 sender_filter subject_filter (mkWorld [] []) =
      (Ok [],
       mkWorld [ReqList "is:unread" 10; ReqGet (PStr "m1"); ReqGet (PStr "m2")]
         ["❌ Error fetching emails: HttpError"]))
  /\ (forall days query_filter,
      filter_query (P := flaky_platform) days query_filter = Ok "is:unread" ->
      get_emails_by_filter (P := flaky_platform) days 10 query_filter (mkWorld [] []) =
      (Ok [],
       mkWorld [ReqList "is:unread" 10; ReqGet (PStr "m1"); ReqGet (PStr "m2")]
         ["❌ Error fetching emails: HttpError"])).
Proof.
  refine (batch_read_returns_nothing_on_fetch_error (P := flaky_platform)
            "is:unread" 10 _ _ [listed "m1"] [] (listed "m2") (PStr "m2")
            [(PStr "m1", hi_email)] 500 "Backend Error" (mkWorld [] []) _ _ _ _ _ _);
    reflexivity.
Defined.

(** C1, as stated, fails: of two listed messages the first is fetched and
    decoded and the fetch of the second fails; the gateway returns no
    record instead of one. *)
Lemma batch_read_counterexample :
  fetch_prefix (P := flaky_platform) [listed "m1"] = Some [(PStr "m1", hi_email)]
  /\ execute (Platform := flaky_platform) (ReqGet (PStr "m2")) =
     Raise (HttpError 500 "Backend Error")
  /\ get_unread_emails (P := flaky_platform) 10 None None (mkWorld [] []) =
     (Ok [],
      mkWorld [ReqList "is:unread" 10; ReqGet (PStr "m1"); ReqGet (PStr "m2")]
        ["❌ Error fetching emails: HttpError"])
  /\ fst (get_unread_emails (P := flaky_platform) 10 None None (mkWorld [] [])) <> Ok [hi_email].
Proof.
  repeat split; try (vm_compute; reflexivity). vm_compute. discriminate.
Qed.

(** A body that cannot be decoded stops a batch read with the exception
    of the decoding: the handler of the batch catches HttpError only. *)
Lemma batch_read_raises_on_decode_error {P : Platform}
    (limit : Z) (sender_filter subject_filter : option string) (results messages : pyval)
    (pre post : list pyval) (bad bad_id msg : pyval) (fetched : list (pyval * Email))
    (ex : exn) (w : world) :
  execute (ReqList (unread_query sender_filter subject_filter) limit) = Ok results ->
  get_default results "messages" (PList []) = Ok messages ->
  py_iter messages = Ok (pre ++ bad :: post)%list ->
  fetch_prefix pre = Some fetched ->
  getitem bad "id" = Ok bad_id ->
  execute (ReqGet bad_id) = Ok msg ->
  _parse_email msg = Raise ex ->
  is_HttpError ex = false ->
  get_unread_emails limit sender_filter subject_filter w =
  (Raise ex,
   mkWorld (calls w ++ ReqList (unread_query sender_filter subject_filter) limit
              :: get_requests fetched ++ [ReqGet bad_id]) (stdout w)).
Proof.
  intros Hlist Hmsgs Hiter Hpre Hid Hget Hparse Hex.
  unfold get_unread_emails. apply batch_stops_other; [|exact Hex].
  eapply fetch_query_stops; eauto. split; eauto.
Qed.

Example garbled_batch_raises :
  get_unread_emails (P := garbled_platform) 10 None None (mkWorld [] []) =
  (Raise BinasciiError, mkWorld [ReqList "is:unread" 10; ReqGet (PStr "m1")] []).
Proof. vm_compute. reflexivity. Qed.

(** ** MessageTranscoder, write direction, and the send operation *)

Lemma truthy_nonempty (t : string) : t <> "" -> truthy (Some t) = true.
Proof. intros H. cbn. apply negb_true_iff. now apply String.eqb_neq. Qed.

Section SendFacts.
Context {P : Platform}.

(** [send_email] makes one call, the send of its request, whatever the
    remote answers. *)
Lemma send_email_calls (to_email subject body : string) (is_html : bool)
    (reply_to_id : option string) (request : pyval) (w : world) :
  send_email_request to_email subject body is_html reply_to_id = Ok request ->
  calls (snd (send_email to_email subject body is_html reply_to_id w)) =
  calls w ++ [ReqSend request].
Proof.
  intros H. unfold send_email. unfold_st. rewrite H.
  destruct (execute (ReqSend request)) as [result|e]; cbn -[getitem get_default].
  - destruct (getitem result "id") as [mid|e]; cbn -[get_default].
    + destruct (get_default result "threadId" PNone) as [tid|e]; cbn.
      * reflexivity.
      * destruct (is_HttpError e); reflexivity.
    + destruct (is_HttpError e); reflexivity.
  - destruct (is_HttpError e); reflexivity.
Qed.

End SendFacts.

(** C7 (amended).  For every outgoing message whose reply_to_id is a
    non-empty str T, the raw message, which is what the [email] package
    serializes from the message object built, has on that object exactly
    one In-Reply-To header and one References header, both T.  When the
    serialization succeeds, the request handed to the send endpoint
    holds the url-safe base64 of the serialized bytes with thread id T
    beside it, and it is the one call made; when the serialization
    raises, nothing is submitted. *)
Theorem reply_sets_headers_and_thread_id {P : Platform}
    (to_email subject body : string) (is_html : bool) (T : string) (w : world) :
  T <> "" ->
  let message := build_message to_email subject body is_html (Some T) in
  msg_get_all message "In-Reply-To" = [T]
  /\ msg_get_all message "References" = [T]
  /\ msg_get message "In-Reply-To" = Some T
  /\ msg_get message "References" = Some T
  /\ (forall raw, as_bytes message = Ok raw ->
       let request :=
         PDict [("raw", PStr (Base64.urlsafe_b64encode raw)); ("threadId", PStr T)] in
       send_email_request to_email subject body is_html (Some T) = Ok request
       /\ Base64.urlsafe_b64decode (Base64.urlsafe_b64encode raw) = Ok raw
       /\ calls (snd (send_email to_email subject body is_html (Some T) w)) =
          calls w ++ [ReqSend request])
  /\ (forall ex, as_bytes message = Raise ex ->
       calls (snd (send_email to_email subject body is_html (Some T) w)) = calls w).
Proof.
  intros HT message. pose proof (truthy_nonempty T HT) as Ht.
  assert (Hall : msg_get_all message "In-Reply-To" = [T]
                 /\ msg_get_all message "References" = [T]).
  { subst message. unfold build_message. rewrite Ht.
    destruct is_html; split; reflexivity. }
  destruct Hall as [Hin Href].
  split; [exact Hin|]. split; [exact Href|].
  split; [unfold msg_get; now rewrite Hin|].
  split; [unfold msg_get; now rewrite Href|].
  split.
  - intros raw Hraw request.
    assert (Hreq : send_email_request to_email subject body is_html (Some T) = Ok request).
    { unfold send_email_request. fold message. unfold_bind. rewrite Hraw, Ht. reflexivity. }
    split; [exact Hreq|]. split; [apply urlsafe_b64_roundtrip|].
    now apply send_email_calls.
  - intros ex Hraw. unfold send_email, send_email_request. fold message.
    unfold_st. unfold_bind. rewrite Hraw. now destruct (is_HttpError ex).
Qed.

Lemma reply_sets_headers_and_thread_id_witness :
  msg_get_all (build_message "a@b.c" "Hi" "Hello" false (Some "T1")) "In-Reply-To" = ["T1"]
  /\ msg_get_all (build_message "a@b.c" "Hi" "Hello" false (Some "T1")) "References" = ["T1"]
  /\ msg_get (build_message "a@b.c" "Hi" "Hello" false (Some "T1")) "In-Reply-To" = Some "T1"
  /\ msg_get (build_message "a@b.c" "Hi" "Hello" false (Some "T1")) "References" = Some "T1"
  /\ (forall raw,
       as_bytes (Platform := flaky_platform)
         (build_message "a@b.c" "Hi" "Hello" false (Some "T1")) = Ok raw ->
       send_email_request (P := flaky_platform) "a@b.c" "Hi" "Hello" false (Some "T1") =
       Ok (PDict [("raw", PStr (Base64.urlsafe_b64encode raw)); ("threadId", PStr "T1")])
       /\ Base64.urlsafe_b64decode (Base64.urlsafe_b64encode raw) = Ok raw
       /\ calls (snd (send_email (P := flaky_platform) "a@b.c" "Hi" "Hello" false (Some "T1")
                        (mkWorld [] []))) =
          [] ++ [ReqSend (PDict [("raw", PStr (Base64.urlsafe_b64encode raw));
                                 ("threadId", PStr "T1")])])
  /\ (forall ex,
       as_bytes (Platform := flaky_platform)
         (build_message "a@b.c" "Hi" "Hello" false (Some "T1")) = Raise ex ->
       calls (snd (send_email (P := flaky_platform) "a@b.c" "Hi" "Hello" false (Some "T1")
                     (mkWorld [] []))) = []).
Proof.
  refine (reply_sets_headers_and_thread_id (P := flaky_platform)
            "a@b.c" "Hi" "Hello" false "T1" (mkWorld [] []) _).
  discriminate.
Defined.

(** C7, as stated, fails twice.  The empty str counts as no reply id: no
    header is set and the request has no thread id.  And a reply id that
    the serializer refuses, here one with a line feed in it, makes
    [send_email] raise before anything is submitted. *)
Lemma empty_reply_id_counterexample :
  (msg_get (build_message "a@b.c" "Hi" "Hello" false (Some "")) "In-Reply-To" = None
   /\ msg_get (build_message "a@b.c" "Hi" "Hello" false (Some "")) "References" = None
   /\ (request ← send_email_request (P := flaky_platform) "a@b.c" "Hi" "Hello" false (Some "");
       getitem request "threadId") = Raise (KeyError "threadId"))
  /\ send_email (P := strict_platform) "a@b.c" "Hi" "Hello" false (Some injected_reply_id)
       (mkWorld [] []) =
     (Raise (OtherError "HeaderWriteError"), mkWorld [] []).
Proof. repeat split; vm_compute; reflexivity. Qed.

(** ** Decoding what was encoded, as the remote API gives it back *)






(** ** MailboxGateway: mark-read *)

Lemma remove_one_delta (label : string) (labels : gset string) :
  apply_delta ([], [label]) labels = labels ∖ {[label]}.
Proof.
  unfold apply_delta. cbn [fst snd]. apply set_eq. intros x.
  rewrite elem_of_union, !elem_of_difference, !elem_of_list_to_set.
  rewrite elem_of_singleton, list_elem_of_singleton, elem_of_nil. tauto.
Qed.

(** C10.  For every message id, mark-read issues exactly one call, a
    modify of that message whose body removes the label UNREAD and adds
    none; on the remote label state it changes the labels of that message
    only, by taking UNREAD out of them. *)
Theorem mark_as_read_removes_only_unread {P : Platform}
    (message_id : string) (w : world) (mailbox : gmap string (gset string)) :
  let body := PDict [("removeLabelIds", PList [PStr "UNREAD"])] in
  let issued := drop (length (calls w)) (calls (snd (mark_as_read message_id w))) in
  calls (snd (mark_as_read message_id w)) = calls w ++ [ReqModify message_id body]
  /\ issued = [ReqModify message_id body]
  /\ label_delta body = ([], ["UNREAD"])
  /\ remote_labels_all issued mailbox =
     alter (fun labels => labels ∖ {["UNREAD"]}) message_id mailbox.
Proof.
  intros body issued.
  assert (Hcalls : calls (snd (mark_as_read message_id w)) =
                   calls w ++ [ReqModify message_id body]).
  { unfold mark_as_read. unfold_st.
    destruct (execute (ReqModify message_id body)) as [r|e] eqn:He; fold body; rewrite He.
    - reflexivity.
    - destruct (is_HttpError e); reflexivity. }
  assert (Hissued : issued = [ReqModify message_id body]).
  { subst issued. rewrite Hcalls. now rewrite drop_app_length. }
  repeat split; try assumption.
  rewrite Hissued. cbn [remote_labels_all fold_left remote_labels].
  apply alter_ext. intros labels _. change (label_delta body) with ([] : list string, ["UNREAD"]).
  apply remove_one_delta.
Qed.

(** ** CredentialManager *)

Ltac unfold_auth :=
  unfold authenticate, auth_code, consent, build_service, external, save_credentials,
    interrupted_save, save_steps, read_token_file, read_secrets_file, log_event, set_service,
    auth_print, fs_open_truncate, fs_write in *;
  cbn [run_steps take] in *;
  unfold_st.

Section AuthFacts.
Context {P : AuthPlatform}.

(** Building the client touches neither the token file nor the servers;
    an [Exception] of the build is caught and gives False, any other
    exception is raised. *)
Lemma build_service_effects (c : Credentials) (w : auth_world) :
  token_file (snd (build_service c w)) = token_file w
  /\ events (snd (build_service c w)) = events w ++ [EvBuild c]
  /\ (build c = Ok tt ->
      build_service c w =
      (Ok true, mkAuthWorld (token_file w) (secrets_file w) (Some c)
                  (events w ++ [EvBuild c]) (auth_stdout w)))
  /\ (forall e, build c = Raise e -> is_Exception e = true ->
      build_service c w =
      (Ok false,
       mkAuthWorld (token_file w) (secrets_file w) (service w) (events w ++ [EvBuild c])
         (auth_stdout w ++
          [("❌ Gmail API authentication failed: " ++ str_auth_exn e)%string])))
  /\ (forall e, build c = Raise e -> is_Exception e = false ->
      build_service c w =
      (Raise e,
       mkAuthWorld (token_file w) (secrets_file w) (service w) (events w ++ [EvBuild c])
         (auth_stdout w))).
Proof.
  unfold_auth. destruct (build c) as [[]|e]; cbn.
  - repeat split; auto; discriminate.
  - destruct (is_Exception e) eqn:He; cbn; repeat split; auto; try discriminate;
      intros e' [= <-] He'; congruence.
Qed.

(** A complete save leaves the JSON of the credentials in the file. *)
Lemma save_credentials_effects (c : Credentials) (w : auth_world) :
  save_credentials c w =
  (Ok tt, mkAuthWorld (Some (cred_json c)) (secrets_file w) (service w)
            (events w ++ [EvOpenTruncate; EvWrite (cred_json c)]) (auth_stdout w)).
Proof. unfold_auth. cbn. now rewrite <- app_assoc. Qed.

End AuthFacts.

(** ** Credentials: the paths through [authenticate] *)

Section AuthPaths.
Context {P : AuthPlatform}.

Lemma build_service_frame (c : Credentials) (w : auth_world) :
  events (snd (build_service c w)) = events w ++ [EvBuild c]
  /\ token_file (snd (build_service c w)) = token_file w
  /\ secrets_file (snd (build_service c w)) = secrets_file w.
Proof.
  unfold_auth. destruct (build c) as [[]|e]; cbn; [auto|].
  destruct (is_Exception e); cbn; auto.
Qed.

Lemma save_then_build (c : Credentials) (w : auth_world) :
  events (snd ((_ ← save_credentials c; build_service c) w)) =
  events w ++ [EvOpenTruncate; EvWrite (cred_json c); EvBuild c]
  /\ token_file (snd ((_ ← save_credentials c; build_service c) w)) = Some (cred_json c)
  /\ secrets_file (snd ((_ ← save_credentials c; build_service c) w)) = secrets_file w.
Proof.
  unfold mbind, ST_bind, st_bind. rewrite save_credentials_effects.
  match goal with |- context [build_service c ?w1] =>
    destruct (build_service_frame c w1) as (He & Ht & Hs) end.
  rewrite He, Ht, Hs. cbn. rewrite <- app_assoc. auto.
Qed.

Lemma auth_print_run (line : string) (w : auth_world) :
  auth_print line w = (Ok tt, add_lines w [line]).
Proof. reflexivity. Qed.

Lemma auth_print_then {A : Type} (line : string) (k : ST auth_world A) (w : auth_world) :
  (_ ← auth_print line; k) w = k (add_lines w [line]).
Proof. reflexivity. Qed.

Lemma add_lines_twice (w : auth_world) (a b : list string) :
  add_lines (add_lines w a) b = add_lines w (a ++ b).
Proof. unfold add_lines. cbn. now rewrite app_assoc. Qed.

Lemma print_missing_credentials_run (w : auth_world) :
  print_missing_credentials w = (Ok tt, add_lines w missing_credentials_lines).
Proof.
  unfold print_missing_credentials. rewrite !auth_print_then, auth_print_run.
  rewrite !add_lines_twice. reflexivity.
Qed.

Lemma print_manual_setup_run (secrets : string) (w : auth_world) :
  print_manual_setup secrets w = (Ok tt, add_lines w (manual_setup_lines secrets)).
Proof.
  unfold print_manual_setup. rewrite !auth_print_then, auth_print_run.
  rewrite !add_lines_twice. reflexivity.
Qed.

Lemma consent_run (w : auth_world) :
  consent w =
  match secrets_file w with
  | None => (Ok None, add_lines w missing_credentials_lines)
  | Some content =>
      match from_client_secrets_file content with
      | Raise e => (Raise e, w)
      | Ok _ =>
          match run_local_server content with
          | Ok c => (Ok (Some c), add_events w [EvLocalServer])
          | Raise e =>
              if is_Exception e then
                (Ok None,
                 add_lines (add_events w [EvLocalServer]) (manual_setup_lines content))
              else (Raise e, add_events w [EvLocalServer])
          end
      end
  end.
Proof.
  unfold consent, read_secrets_file. unfold mbind at 1, ST_bind, st_bind at 1. cbn [fst snd].
  destruct (secrets_file w) as [content|] eqn:Hs.
  - unfold mbind at 1, ST_bind, st_bind at 1, lift.
    destruct (from_client_secrets_file content) as [[]|e]; [|reflexivity].
    unfold try_except_Exception, external, log_event. unfold_st.
    destruct (run_local_server content) as [c|e]; [reflexivity|].
    destruct (is_Exception e); [|reflexivity].
    now rewrite print_manual_setup_run.
  - unfold mbind, ST_bind, st_bind. now rewrite print_missing_credentials_run.
Qed.

Lemma authenticate_run (w : auth_world) :
  authenticate w =
  match token_file w with
  | Some content =>
      match from_authorized_user_file content with
      | Raise e => (Raise e, w)
      | Ok c =>
          if cred_valid c then build_service c w
          else if cred_expired c && truthy (cred_refresh_token c) then
            match refresh c with
            | Ok c' => (_ ← save_credentials c'; build_service c') (add_events w [EvRefresh c])
            | Raise e => (Raise e, add_events w [EvRefresh c])
            end
          else after_consent w
      end
  | None => after_consent w
  end.
Proof.
  unfold authenticate, after_consent, read_token_file, external, log_event, add_events.
  unfold mbind, ST_bind, st_bind, mret, ST_ret, st_ret, lift.
  destruct w as [tf sf sv ev so]. cbn [token_file secrets_file service events auth_stdout fst snd].
  destruct tf as [content|].
  - destruct (from_authorized_user_file content) as [c|e]; [|reflexivity].
    destruct (cred_valid c); [now destruct (build_service c _) as [[b|e] w1]|].
    destruct (cred_expired c && truthy (cred_refresh_token c)).
    + destruct (refresh c) as [c'|e]; reflexivity.
    + destruct (consent _) as [[[c'|]|e] w1]; reflexivity.
  - destruct (consent _) as [[[c'|]|e] w1]; reflexivity.
Qed.

End AuthPaths.

Section AuthPaths2.
Context {P : AuthPlatform}.

Lemma authenticate_needs_consent (w : auth_world) :
  needs_consent w -> authenticate w = after_consent w.
Proof.
  unfold needs_consent. rewrite authenticate_run.
  destruct (token_file w) as [content|]; [|reflexivity].
  intros (c & -> & -> & ->). reflexivity.
Qed.

End AuthPaths2.


(** C9 (amended).  With a persisted Credential that the library reports
    valid, [authenticate] makes no refresh exchange, starts no consent
    flow and does not write the token file: its only step is to build
    the client from the stored Credential.  It returns True, the client
    holding the stored Credential, when the build succeeds; when the
    build raises an Exception it prints the error and returns False; an
    exception of the build that is not an Exception is raised. *)
Theorem valid_credential_needs_no_exchange {P : AuthPlatform}
    (w : auth_world) (content : string) (c : Credentials) :
  token_file w = Some content ->
  from_authorized_user_file content = Ok c ->
  cred_valid c = true ->
  events (snd (authenticate w)) = events w ++ [EvBuild c]
  /\ existsb is_exchange (drop (length (events w)) (events (snd (authenticate w)))) = false
  /\ existsb is_write (drop (length (events w)) (events (snd (authenticate w)))) = false
  /\ token_file (snd (authenticate w)) = token_file w
  /\ (build c = Ok tt ->
      authenticate w =
      (Ok true, mkAuthWorld (token_file w) (secrets_file w) (Some c)
                  (events w ++ [EvBuild c]) (auth_stdout w)))
  /\ (forall e, build c = Raise e -> is_Exception e = true ->
      authenticate w =
      (Ok false,
       mkAuthWorld (token_file w) (secrets_file w) (service w) (events w ++ [EvBuild c])
         (auth_stdout w ++
          [("❌ Gmail API authentication failed: " ++ str_auth_exn e)%string])))
  /\ (forall e, build c = Raise e -> is_Exception e = false ->
      authenticate w =
      (Raise e,
       mkAuthWorld (token_file w) (secrets_file w) (service w) (events w ++ [EvBuild c])
         (auth_stdout w))).
Proof.
  intros Hfile Hload Hvalid.
  assert (Hrun : authenticate w = build_service c w).
  { unfold authenticate, read_token_file.
    unfold mbind, ST_bind, st_bind, mret, ST_ret, st_ret, lift.
    rewrite Hfile, Hload, Hvalid.
    now destruct (build_service c w) as [[b|e] w']. }
  rewrite Hrun.
  destruct (build_service_effects c w) as (Htok & Hev & Hok & Hfail & Hraise).
  rewrite Hev, drop_app_length. repeat split; auto.
Qed.

Lemma valid_credential_needs_no_exchange_witness :
  authenticate (P := sample_auth valid_credentials (Raise (RefreshError "invalid_grant")))
    stored_world =
  (Ok true, mkAuthWorld (Some "{token: old}") (Some "{installed: {}}") (Some valid_credentials)
              [EvBuild valid_credentials] []).
Proof.
  refine (proj1 (proj2 (proj2 (proj2 (proj2
            (valid_credential_needs_no_exchange
               (P := sample_auth valid_credentials (Raise (RefreshError "invalid_grant")))
               stored_world "{token: old}" valid_credentials _ _ _))))) _);
    reflexivity.
Defined.

(** C9, as stated, fails: with a valid stored Credential and a client
    build that raises, [authenticate] returns False, no token and no
    client, after the one build step and one printed line. *)
Lemma valid_credential_build_failure_counterexample :
  token_file stored_world = Some "{token: old}"
  /\ from_authorized_user_file (AuthPlatform := broken_build_auth) "{token: old}" =
     Ok valid_credentials
  /\ cred_valid valid_credentials = true
  /\ authenticate (P := broken_build_auth) stored_world =
     (Ok false,
      mkAuthWorld (Some "{token: old}") (Some "{installed: {}}") None
        [EvBuild valid_credentials] ["❌ Gmail API authentication failed: error"]).
Proof. repeat split. Qed.

(** C5 (amended).  With a persisted Credential that is expired and has a
    refresh token, when the refresh exchange fails [authenticate] raises
    the exception of the refresh: no consent flow is started, the token
    file is left as it was and no client is built. *)
Theorem failed_refresh_propagates {P : AuthPlatform}
    (w : auth_world) (content : string) (c : Credentials) (ex : exn) :
  token_file w = Some content ->
  from_authorized_user_file content = Ok c ->
  cred_valid c = false ->
  cred_expired c = true ->
  truthy (cred_refresh_token c) = true ->
  refresh c = Raise ex ->
  authenticate w =
  (Raise ex, mkAuthWorld (token_file w) (secrets_file w) (service w)
               (events w ++ [EvRefresh c]) (auth_stdout w)).
Proof.
  intros Hfile Hload Hvalid Hexp Htok Href.
  unfold_auth. rewrite Hfile, Hload, Hvalid, Hexp, Htok. cbn. rewrite Href.
  now rewrite Hfile.
Qed.

Lemma failed_refresh_propagates_witness :
  authenticate (P := sample_auth expired_credentials (Raise (RefreshError "invalid_grant")))
    stored_world =
  (Raise (RefreshError "invalid_grant"),
   mkAuthWorld (Some "{token: old}") (Some "{installed: {}}") None
     [EvRefresh expired_credentials] []).
Proof.
  refine (failed_refresh_propagates
            (P := sample_auth expired_credentials (Raise (RefreshError "invalid_grant")))
            stored_world "{token: old}" expired_credentials (RefreshError "invalid_grant")
            _ _ _ _ _ _);
    reflexivity.
Defined.

(** C5, as stated, fails: with an expired Credential whose refresh is
    refused, [authenticate] raises RefreshError and the consent path (the
    local server) is never entered. *)
Lemma failed_refresh_counterexample :
  fst (authenticate (P := sample_auth expired_credentials (Raise (RefreshError "invalid_grant")))
         stored_world) = Raise (RefreshError "invalid_grant")
  /\ existsb (fun ev => match ev with EvLocalServer => true | _ => false end)
       (events (snd (authenticate
                       (P := sample_auth expired_credentials
                               (Raise (RefreshError "invalid_grant")))
                       stored_world))) = false.
Proof. split; vm_compute; reflexivity. Qed.

(** C6 (amended).  Every successful refresh or exchange overwrites the
    token file in place: the file is opened for writing, which empties
    it, then the JSON of the new Credential is written, and after both
    steps the file holds exactly that JSON.  This holds for the refresh
    of [authenticate], for its consent flow, whether no token file
    exists or the stored Credential is unusable, and for the auth-code
    command.  The write is not atomic: cut short after the first step it
    leaves an empty file. *)
Theorem save_overwrites_in_place {P : AuthPlatform} :
  (forall c w,
      token_file (snd (interrupted_save 0 c w)) = token_file w
      /\ token_file (snd (interrupted_save 1 c w)) = Some ""
      /\ interrupted_save 2 c w = save_credentials c w
      /\ token_file (snd (save_credentials c w)) = Some (cred_json c))
  /\ (forall w content c c',
      token_file w = Some content ->
      from_authorized_user_file content = Ok c ->
      cred_valid c = false ->
      cred_expired c && truthy (cred_refresh_token c) = true ->
      refresh c = Ok c' ->
      token_file (snd (authenticate w)) = Some (cred_json c')
      /\ events (snd (authenticate w)) =
         events w ++ [EvRefresh c; EvOpenTruncate; EvWrite (cred_json c'); EvBuild c'])
  /\ (forall w secrets c',
      needs_consent w ->
      secrets_file w = Some secrets ->
      from_client_secrets_file secrets = Ok tt ->
      run_local_server secrets = Ok c' ->
      token_file (snd (authenticate w)) = Some (cred_json c')
      /\ events (snd (authenticate w)) =
         events w ++ [EvLocalServer; EvOpenTruncate; EvWrite (cred_json c'); EvBuild c'])
  /\ (forall w secrets code c',
      code <> "" ->
      secrets_file w = Some secrets ->
      from_client_secrets_file secrets = Ok tt ->
      fetch_token secrets code = Ok c' ->
      fst (auth_code (Some code) w) = Ok 0
      /\ token_file (snd (auth_code (Some code) w)) = Some (cred_json c')
      /\ events (snd (auth_code (Some code) w)) =
         events w ++ [EvFetchToken code; EvOpenTruncate; EvWrite (cred_json c')]).
Proof.
  repeat apply conj.
  - intros c w. repeat split.
  - intros w content c c' Hfile Hload Hvalid Hexp Href.
    unfold authenticate, read_token_file, external, log_event. unfold_st.
    rewrite Hfile, Hload, Hvalid, Hexp. cbn [fst snd]. rewrite Href.
    rewrite save_credentials_effects.
    match goal with
    | |- context [build_service c' ?w1] =>
        destruct (build_service_effects c' w1) as (Htok & Hev & _);
        destruct (build_service c' w1) as [[b|e] w2]
    end; cbn [fst snd token_file events] in *; rewrite Htok, Hev, <- !app_assoc; auto.
  - intros w secrets c' Hneeds Hsec Hflow Hrun.
    rewrite (authenticate_needs_consent w Hneeds).
    unfold after_consent. rewrite consent_run, Hsec, Hflow, Hrun.
    destruct (save_then_build c' (add_events w [EvLocalServer])) as (Hev & Htok & _).
    rewrite Hev, Htok. cbn [add_events events]. now rewrite <- app_assoc.
  - intros w secrets code c' Hcode Hsec Hflow Hfetch.
    unfold auth_code. rewrite (truthy_nonempty code Hcode). cbn [negb default from_option id].
    unfold read_secrets_file, external, log_event, auth_print. unfold_st.
    rewrite Hsec, Hflow. cbn [secrets_file]. rewrite Hfetch.
    rewrite save_credentials_effects. cbn. rewrite <- !app_assoc. auto.
Qed.

Lemma save_overwrites_in_place_witness :
  (token_file (snd (interrupted_save 0 valid_credentials stored_world)) = Some "{token: old}"
   /\ token_file (snd (interrupted_save 1 valid_credentials stored_world)) = Some ""
   /\ interrupted_save 2 valid_credentials stored_world =
      save_credentials valid_credentials stored_world
   /\ token_file (snd (save_credentials valid_credentials stored_world)) = Some "{token: new}")
  /\ token_file (snd (authenticate (P := sample_auth expired_credentials (Ok valid_credentials))
                       stored_world)) = Some "{token: new}"
  /\ token_file (snd (auth_code (P := sample_auth expired_credentials (Ok valid_credentials))
                       (Some "4/code") stored_world)) = Some "{token: new}"
  /\ (token_file stored_world = Some "{token: old}"
      /\ token_file (snd (authenticate (P := consenting_auth) stored_world)) =
         Some "{token: new}"
      /\ events (snd (authenticate (P := consenting_auth) stored_world)) =
         [] ++ [EvLocalServer; EvOpenTruncate; EvWrite "{token: new}";
                EvBuild valid_credentials]).
Proof.
  pose proof (save_overwrites_in_place
                (P := sample_auth expired_credentials (Ok valid_credentials)))
    as (Hsave & Hrefresh & _ & Hcode).
  split; [exact (Hsave valid_credentials stored_world)|]. split; [|split].
  - exact (proj1 (Hrefresh stored_world "{token: old}" expired_credentials valid_credentials
                    eq_refl eq_refl eq_refl eq_refl eq_refl)).
  - refine (proj1 (proj2 (Hcode stored_world "{installed: {}}" "4/code" valid_credentials
                            _ eq_refl eq_refl eq_refl))).
    discriminate.
  - split; [reflexivity|].
    refine (proj1 (proj2 (proj2 (save_overwrites_in_place (P := consenting_auth))))
              stored_world "{installed: {}}" valid_credentials _ eq_refl eq_refl eq_refl).
    exists (mkCredentials false false None "{token: stale}"). repeat split.
Defined.

(** C6, as stated, fails: the save cut short after its first step leaves
    a token file that holds neither the old Credential nor the new one. *)
Lemma interrupted_save_counterexample :
  token_file stored_world = Some "{token: old}"
  /\ cred_json valid_credentials = "{token: new}"
  /\ token_file (snd (interrupted_save 1 valid_credentials stored_world)) = Some ""
  /\ token_file (snd (interrupted_save 1 valid_credentials stored_world))
     <> token_file stored_world
  /\ token_file (snd (interrupted_save 1 valid_credentials stored_world))
     <> Some (cred_json valid_credentials).
Proof. repeat split; try reflexivity; vm_compute; discriminate. Qed.

(** * Further properties of the code *)

(** ** Headers *)

(** The header loop leaves every field but the four header fields alone. *)
Lemma scan_headers_frame (hs : list pyval) (e e' : Email) :
  scan_headers hs e = Ok e' ->
  email_id e' = email_id e /\ email_thread_id e' = email_thread_id e
  /\ email_snippet e' = email_snippet e /\ email_body e' = email_body e.
Proof.
  revert e. induction hs as [|h hs IH]; intros e; cbn [scan_headers].
  - now intros [= ->].
  - unfold_bind. destruct (getitem h "name") as [n|]; [|discriminate].
    destruct (py_lower n) as [name|]; [|discriminate].
    repeat match goal with
           | |- context [if ?b then _ else _] => destruct b
           end;
      try (destruct (getitem h "value") as [v|]; [|discriminate]);
      intros H; apply IH in H; exact H.
Qed.

Lemma scan_headers_well_formed (hs : list pyval) (e : Email) :
  forallb well_formed_header hs = true ->
  scan_headers hs e =
  Ok (mkEmail (email_id e) (email_thread_id e) (email_snippet e)
        (last_header "date" hs (email_date e)) (last_header "from" hs (email_from e))
        (last_header "to" hs (email_to e)) (last_header "subject" hs (email_subject e))
        (email_body e) (email_is_html e)).
Proof.
  revert e. induction hs as [|h hs IH]; intros e.
  - intros _. now destruct e.
  - cbn [forallb]. rewrite andb_true_iff. intros [Hh Hhs].
    cbn [scan_headers last_header]. unfold well_formed_header in Hh.
    unfold header_named, header_value. unfold_bind.
    destruct (getitem h "name") as [[| | |name| |]|]; try discriminate.
    destruct (getitem h "value") as [v|]; [|discriminate].
    cbn [py_lower].
    destruct (String.eqb (lower name) "date") eqn:Hd.
    { apply String.eqb_eq in Hd. rewrite Hd. cbn [String.eqb Ascii.eqb Bool.eqb].
      now rewrite IH. }
    destruct (String.eqb (lower name) "from") eqn:Hf.
    { apply String.eqb_eq in Hf. rewrite Hf. cbn [String.eqb Ascii.eqb Bool.eqb].
      now rewrite IH. }
    destruct (String.eqb (lower name) "to") eqn:Ht.
    { apply String.eqb_eq in Ht. rewrite Ht. cbn [String.eqb Ascii.eqb Bool.eqb].
      now rewrite IH. }
    destruct (String.eqb (lower name) "subject") eqn:Hs; now rewrite IH.
Qed.

(** X1.  When every header entry is a dict with a str name and a value,
    each of the fields date, from, to and subject of the decoded record
    is the value of the last header of that name, names compared without
    regard to letter case, and None when no header has the name. *)
Theorem header_fields_take_last_match (msg p : pyval) (hs : list pyval) (e : Email) :
  getitem msg "payload" = Ok p ->
  get_default p "headers" (PList []) = Ok (PList hs) ->
  forallb well_formed_header hs = true ->
  _parse_email msg = Ok e ->
  email_date e = last_header "date" hs PNone
  /\ email_from e = last_header "from" hs PNone
  /\ email_to e = last_header "to" hs PNone
  /\ email_subject e = last_header "subject" hs PNone.
Proof.
  intros Hp Hhs Hwf. unfold _parse_email, parse_headers. unfold_bind.
  rewrite Hp, Hhs.
  destruct (getitem msg "id") as [id|]; [|discriminate].
  destruct (getitem msg "threadId") as [tid|]; [|discriminate].
  destruct (getitem msg "snippet") as [sn|]; [|discriminate].
  cbn [py_iter]. rewrite (scan_headers_well_formed _ _ Hwf).
  destruct (_get_message_body p) as [body|]; [|discriminate].
  intros [= <-]. cbn. auto.
Qed.

Lemma header_fields_take_last_match_witness :
  email_date hi_subject_email = last_header "date" hi_headers PNone
  /\ email_from hi_subject_email = last_header "from" hi_headers PNone
  /\ email_to hi_subject_email = last_header "to" hi_headers PNone
  /\ email_subject hi_subject_email = last_header "subject" hi_headers PNone.
Proof.
  refine (header_fields_take_last_match hi_headers_message _ hi_headers hi_subject_email
            _ _ _ _); reflexivity.
Defined.

(** X2.  A decoded record carries the id, the thread id and the snippet
    of the message as they are. *)
Theorem parse_email_copies_ids (msg : pyval) (e : Email) :
  _parse_email msg = Ok e ->
  getitem msg "id" = Ok (email_id e)
  /\ getitem msg "threadId" = Ok (email_thread_id e)
  /\ getitem msg "snippet" = Ok (email_snippet e).
Proof.
  unfold _parse_email, parse_headers. unfold_bind.
  destruct (getitem msg "payload") as [p|]; [|discriminate].
  destruct (get_default p "headers" (PList [])) as [hd|]; [|discriminate].
  destruct (getitem msg "id") as [id|]; [|discriminate].
  destruct (getitem msg "threadId") as [tid|]; [|discriminate].
  destruct (getitem msg "snippet") as [sn|]; [|discriminate].
  destruct (py_iter hd) as [hs|]; [|discriminate].
  destruct (scan_headers hs _) as [e0|] eqn:Hscan; [|discriminate].
  destruct (_get_message_body p) as [body|]; [|discriminate].
  intros [= <-]. apply scan_headers_frame in Hscan as (H1 & H2 & H3 & _).
  cbn in *. rewrite H1, H2, H3. auto.
Qed.

Lemma parse_email_copies_ids_witness :
  getitem hi_headers_message "id" = Ok (email_id hi_subject_email)
  /\ getitem hi_headers_message "threadId" = Ok (email_thread_id hi_subject_email)
  /\ getitem hi_headers_message "snippet" = Ok (email_snippet hi_subject_email).
Proof.
  refine (parse_email_copies_ids hi_headers_message hi_subject_email _). reflexivity.
Defined.

(** X3.  A message that lacks one of the keys payload, id, threadId and
    snippet makes [_parse_email] raise KeyError for the first one missing,
    in that order; a payload without a headers key is not an error. *)
Theorem parse_email_missing_key (d pd : list (string * pyval)) :
  (dict_lookup "payload" d = None ->
   _parse_email (PDict d) = Raise (KeyError "payload"))
  /\ (dict_lookup "payload" d = Some (PDict pd) ->
      dict_lookup "id" d = None ->
      _parse_email (PDict d) = Raise (KeyError "id"))
  /\ (dict_lookup "payload" d = Some (PDict pd) ->
      dict_lookup "id" d <> None -> dict_lookup "threadId" d = None ->
      _parse_email (PDict d) = Raise (KeyError "threadId"))
  /\ (dict_lookup "payload" d = Some (PDict pd) ->
      dict_lookup "id" d <> None -> dict_lookup "threadId" d <> None ->
      dict_lookup "snippet" d = None ->
      _parse_email (PDict d) = Raise (KeyError "snippet"))
  /\ (forall id thread_id snippet,
      dict_lookup "payload" d = Some (PDict pd) ->
      dict_lookup "headers" pd = None ->
      dict_lookup "id" d = Some id -> dict_lookup "threadId" d = Some thread_id ->
      dict_lookup "snippet" d = Some snippet ->
      parse_headers (PDict d) =
      Ok (mkEmail id thread_id snippet PNone PNone PNone PNone "" false)).
Proof.
  unfold _parse_email, parse_headers, getitem, get_default. unfold_bind.
  repeat split.
  - intros ->. reflexivity.
  - intros -> ->. now destruct (dict_lookup "headers" pd).
  - intros -> Hid ->. destruct (dict_lookup "headers" pd);
      destruct (dict_lookup "id" d); congruence.
  - intros -> Hid Htid ->. destruct (dict_lookup "headers" pd);
      destruct (dict_lookup "id" d); destruct (dict_lookup "threadId" d); congruence.
  - intros id thread_id snippet -> -> -> -> ->. reflexivity.
Qed.

Lemma parse_email_missing_key_witness :
  _parse_email (PDict [("id", PStr "m1")]) = Raise (KeyError "payload")
  /\ _parse_email (PDict [("payload", plain_hi); ("id", PStr "m1"); ("threadId", PStr "t1")]) =
     Raise (KeyError "snippet").
Proof.
  split.
  - refine (proj1 (parse_email_missing_key [("id", PStr "m1")] []) _). reflexivity.
  - refine (proj1 (proj2 (proj2 (proj2
              (parse_email_missing_key
                 [("payload", plain_hi); ("id", PStr "m1"); ("threadId", PStr "t1")]
                 [("mimeType", PStr "text/plain");
                  ("body", PDict [("size", PInt 0); ("data", PStr "SGk=")])]))))
              _ _ _ _); try reflexivity; discriminate.
Defined.

(** X4.  When no direct child of the payload has a text type the body is
    the empty str, also when text parts lie one level further down; a
    payload without parts whose own type is not a text type gives the
    empty str too. *)
Theorem no_text_part_gives_empty_body (d : list (string * pyval)) (parts : list pyval) :
  (dict_lookup "parts" d = Some (PList parts) ->
   forallb is_other parts = true ->
   _get_message_body (PDict d) = Ok "")
  /\ (dict_lookup "parts" d = None ->
      is_other (PDict d) = true ->
      _get_message_body (PDict d) = Ok "").
Proof.
  split.
  - intros Hparts Hall. unfold _get_message_body, getitem. rewrite Hparts. unfold_bind.
    cbn [py_iter]. rewrite <- (app_nil_r parts). now rewrite body_of_parts_skip.
  - intros Hparts Hother. unfold _get_message_body. rewrite Hparts.
    apply is_other_inv in Hother as (mt & Hmt & Hplain & Hhtml).
    unfold_bind. now rewrite Hmt, Hplain, Hhtml.
Qed.

Lemma no_text_part_gives_empty_body_witness :
  _get_message_body nested_payload = Ok ""
  /\ _get_message_body (PDict [("mimeType", PStr "image/png");
                               ("body", PDict [("attachmentId", PStr "a1")])]) = Ok "".
Proof.
  split.
  - refine (proj1 (no_text_part_gives_empty_body _ _) _ _); reflexivity.
  - refine (proj2 (no_text_part_gives_empty_body _ []) _ _); reflexivity.
Defined.

(** X5.  When the part the body is taken from has a body without a data
    key (an empty body, or one that only names an attachment),
    [_get_message_body] raises KeyError for data and [_parse_email]
    returns no record. *)
Theorem text_part_without_data_raises (msg payload part : pyval) (b : list (string * pyval)) :
  getitem msg "payload" = Ok payload ->
  chooses payload part ->
  getitem part "body" = Ok (PDict b) ->
  dict_lookup "data" b = None ->
  _get_message_body payload = Raise (KeyError "data")
  /\ forall e, _parse_email msg <> Ok e.
Proof.
  intros Hp Hch Hb Hdata.
  assert (Hbody : _get_message_body payload = Raise (KeyError "data")).
  { rewrite (chooses_body _ _ Hch). unfold part_text. unfold_bind. rewrite Hb.
    unfold getitem. now rewrite Hdata. }
  split; [exact Hbody|].
  intros e. unfold _parse_email. unfold_bind.
  destruct (parse_headers msg); [|discriminate]. now rewrite Hp, Hbody.
Qed.

Lemma text_part_without_data_raises_witness :
  _get_message_body empty_text_part = Raise (KeyError "data")
  /\ forall e, _parse_email (api_message "m1" empty_text_part) <> Ok e.
Proof.
  refine (text_part_without_data_raises (api_message "m1" empty_text_part) empty_text_part
            empty_text_part [("size", PInt 0)] _ _ _ _); try reflexivity.
  right. exists [("mimeType", PStr "text/plain"); ("body", PDict [("size", PInt 0)])].
  repeat split; reflexivity.
Defined.

(** X6.  A header entry without a name makes the header loop raise
    KeyError, whatever the entry is about; a header whose name is none of
    the four is skipped without its value being read. *)
Theorem header_without_name_raises (pre post : list pyval) (h : pyval)
    (hd : list (string * pyval)) (e : Email) :
  (forallb well_formed_header pre = true ->
   h = PDict hd -> dict_lookup "name" hd = None ->
   scan_headers (pre ++ h :: post) e = Raise (KeyError "name"))
  /\ (forall name,
      dict_lookup "name" hd = Some (PStr name) ->
      existsb (String.eqb (lower name)) ["date"; "from"; "to"; "subject"] = false ->
      scan_headers (PDict hd :: post) e = scan_headers post e).
Proof.
  split.
  - intros Hpre -> Hname. revert e. induction pre as [|p pre IH]; intros e.
    + cbn [app scan_headers]. unfold getitem. rewrite Hname. reflexivity.
    + cbn [forallb] in Hpre. apply andb_true_iff in Hpre as [Hp Hpre].
      pose proof (scan_headers_well_formed [p] e) as Hone.
      cbn [forallb] in Hone. rewrite Hp in Hone. specialize (Hone eq_refl).
      change ((p :: pre) ++ PDict hd :: post) with (p :: (pre ++ PDict hd :: post)).
      revert Hone. cbn [scan_headers]. unfold_bind.
      destruct (getitem p "name") as [n|]; [|discriminate].
      destruct (py_lower n) as [name|]; [|discriminate].
      repeat match goal with
             | |- context [if ?c then _ else _] => destruct c
             end;
        try (destruct (getitem p "value") as [v|]; [|discriminate]);
        intros _; apply IH; assumption.
  - intros name Hname Hnone. cbn [existsb] in Hnone.
    rewrite !orb_false_iff in Hnone. destruct Hnone as (Hd & Hf & Ht & Hs & _).
    cbn [scan_headers]. unfold getitem. rewrite Hname. unfold_bind. cbn [py_lower].
    now rewrite Hd, Hf, Ht, Hs.
Qed.

Lemma header_without_name_raises_witness :
  scan_headers ([api_header "Subject" "Hi"] ++ PDict [("value", PStr "v")] :: []) hi_email =
  Raise (KeyError "name")
  /\ scan_headers (PDict [("name", PStr "X-Mailer")] :: []) hi_email = scan_headers [] hi_email.
Proof.
  split.
  - refine (proj1 (header_without_name_raises [api_header "Subject" "Hi"] []
                     (PDict [("value", PStr "v")]) [("value", PStr "v")] hi_email) _ _ _);
      reflexivity.
  - refine (proj2 (header_without_name_raises [] [] PNone [("name", PStr "X-Mailer")] hi_email)
              "X-Mailer" _ _); reflexivity.
Defined.

(** ** Batch reads *)

(** X7.  When every listed message is fetched and decoded without error,
    a batch read returns one record per listed message, in the order of
    the listing; it makes the list call and then one get call per message
    in that order, and prints nothing. *)
Theorem batch_read_keeps_listing_order {P : Platform}
    (q : string) (limit : Z) (results messages : pyval) (items : list pyval)
    (fetched : list (pyval * Email)) (w : world) :
  execute (ReqList q limit) = Ok results ->
  get_default results "messages" (PList []) = Ok messages ->
  py_iter messages = Ok items ->
  fetch_prefix items = Some fetched ->
  length (map snd fetched) = length items
  /\ (forall sender_filter subject_filter,
      q = unread_query sender_filter subject_filter ->
      get_unread_emails limit sender_filter subject_filter w =
      (Ok (map snd fetched),
       mkWorld (calls w ++ ReqList q limit :: get_requests fetched) (stdout w)))
  /\ (forall days query_filter,
      filter_query days query_filter = Ok q ->
      get_emails_by_filter days limit query_filter w =
      (Ok (map snd fetched),
       mkWorld (calls w ++ ReqList q limit :: get_requests fetched) (stdout w))).
Proof.
  intros Hlist Hmsgs Hiter Hpre.
  assert (Hlen : length (map snd fetched) = length items).
  { clear Hiter. revert fetched Hpre. induction items as [|m items IH]; intros fetched.
    - now intros [= <-].
    - cbn [fetch_prefix]. destruct (fetch_ok m); [|discriminate].
      destruct (fetch_prefix items) as [xs|]; [|discriminate].
      intros [= <-]. cbn. f_equal. now apply IH. }
  assert (Hq : fetch_query q limit w =
               (Ok (map snd fetched),
                mkWorld (calls w ++ ReqList q limit :: get_requests fetched) (stdout w))).
  { unfold fetch_query. unfold_st. rewrite Hlist, Hmsgs, Hiter.
    rewrite <- (app_nil_r items), (fetch_each_prefix _ _ _ _ _ Hpre).
    cbn. now rewrite <- app_assoc. }
  split; [exact Hlen|]. split.
  - intros sf subf ->. unfold get_unread_emails, try_except_HttpError. now rewrite Hq.
  - intros days qf Hdate. rewrite (get_emails_by_filter_run _ _ _ _ _ Hdate).
    unfold try_except_HttpError. now rewrite Hq.
Qed.

Lemma batch_read_keeps_listing_order_witness :
  get_unread_emails (P := steady_platform) 5 None None (mkWorld [] []) =
  (Ok [hi_email; hello_email],
   mkWorld [ReqList "is:unread" 5; ReqGet (PStr "m1"); ReqGet (PStr "m2")] []).
Proof.
  refine (proj1 (proj2 (batch_read_keeps_listing_order (P := steady_platform)
                          "is:unread" 5 _ _ [listed "m1"; listed "m2"]
                          [(PStr "m1", hi_email); (PStr "m2", hello_email)] (mkWorld [] [])
                          _ _ _ _)) None None _); reflexivity.
Defined.

(** X8.  When the list call itself fails with an HttpError, a batch read
    returns the empty list after that one call and prints one error
    line; when the listing has no messages key it returns the empty list
    after that one call and prints nothing. *)
Theorem batch_read_without_listing {P : Platform}
    (limit : Z) (sender_filter subject_filter : option string) (w : world) :
  (forall status message,
      execute (ReqList (unread_query sender_filter subject_filter) limit) =
      Raise (HttpError status message) ->
      get_unread_emails limit sender_filter subject_filter w =
      (Ok [],
       mkWorld (calls w ++ [ReqList (unread_query sender_filter subject_filter) limit])
         (stdout w ++
          [("❌ Error fetching emails: " ++ str_exn (HttpError status message))%string])))
  /\ (forall d,
      execute (ReqList (unread_query sender_filter subject_filter) limit) = Ok (PDict d) ->
      dict_lookup "messages" d = None ->
      get_unread_emails limit sender_filter subject_filter w =
      (Ok [],
       mkWorld (calls w ++ [ReqList (unread_query sender_filter subject_filter) limit])
         (stdout w))).
Proof.
  split.
  - intros status message H. unfold get_unread_emails, fetch_query, report_fetch_error.
    unfold_st. rewrite H. reflexivity.
  - intros d H Hd. unfold get_unread_emails, fetch_query. unfold_st. rewrite H.
    unfold get_default. rewrite Hd. reflexivity.
Qed.

Lemma batch_read_without_listing_witness :
  get_unread_emails (P := down_platform) 5 None None (mkWorld [] []) =
  (Ok [], mkWorld [ReqList "is:unread" 5] ["❌ Error fetching emails: HttpError"])
  /\ get_unread_emails (P := empty_platform) 5 (Some "nobody") None (mkWorld [] []) =
     (Ok [], mkWorld [ReqList "is:unread from:nobody" 5] []).
Proof.
  split.
  - refine (proj1 (batch_read_without_listing (P := down_platform) 5 None None (mkWorld [] []))
              503 "Service Unavailable" _). reflexivity.
  - refine (proj2 (batch_read_without_listing (P := empty_platform) 5 (Some "nobody") None
                     (mkWorld [] [])) [] _ _); reflexivity.
Defined.

(** X9.  A body that cannot be decoded stops a batch read with the
    exception of the decoding, which is not an HttpError and so is not
    caught: the records decoded so far are lost with it and the messages
    listed after it are not fetched. *)
Theorem batch_read_stops_on_decode_error {P : Platform}
    (limit : Z) (sender_filter subject_filter : option string) (results messages : pyval)
    (pre post : list pyval) (bad bad_id msg : pyval) (fetched : list (pyval * Email))
    (ex : exn) (w : world) :
  execute (ReqList (unread_query sender_filter subject_filter) limit) = Ok results ->
  get_default results "messages" (PList []) = Ok messages ->
  py_iter messages = Ok (pre ++ bad :: post) ->
  fetch_prefix pre = Some fetched ->
  getitem bad "id" = Ok bad_id ->
  execute (ReqGet bad_id) = Ok msg ->
  _parse_email msg = Raise ex ->
  is_HttpError ex = false ->
  get_unread_emails limit sender_filter subject_filter w =
  (Raise ex,
   mkWorld (calls w ++ ReqList (unread_query sender_filter subject_filter) limit
              :: get_requests fetched ++ [ReqGet bad_id]) (stdout w)).
Proof. apply batch_read_raises_on_decode_error. Qed.

Lemma batch_read_stops_on_decode_error_witness :
  get_unread_emails (P := late_garbled_platform) 5 None None (mkWorld [] []) =
  (Raise BinasciiError,
   mkWorld ([] ++ ReqList "is:unread" 5
              :: get_requests [(PStr "m1", hi_email)] ++ [ReqGet (PStr "m2")]) []).
Proof.
  refine (batch_read_stops_on_decode_error (P := late_garbled_platform) 5 None None _ _
            [listed "m1"] [listed "m3"] (listed "m2") (PStr "m2") _
            [(PStr "m1", hi_email)] BinasciiError (mkWorld [] []) _ _ _ _ _ _ _ _);
    reflexivity.
Defined.

(** ** What the gateway operations never raise *)

Lemma handled_never_raises_http {W A : Type} (body : ST W A) (handler : exn -> ST W A)
    (w : W) (status : Z) (message : string) :
  (forall e w', exists a, fst (handler e w') = Ok a) ->
  fst (try_except_HttpError body handler w) <> Raise (HttpError status message).
Proof.
  intros Hh. unfold try_except_HttpError. destruct (body w) as [[a|e] w'].
  - discriminate.
  - destruct (is_HttpError e) eqn:He.
    + destruct (Hh e w') as [a Ha]. rewrite Ha. discriminate.
    + cbn. intros [= ->]. discriminate.
Qed.

(** X10.  None of the gateway operations lets an HttpError out: the two
    batch reads, send, mark-read and the profile read all end without it,
    whatever the remote API answers. *)
Theorem gateway_never_raises_HttpError {P : Platform} (w : world) (status : Z)
    (message : string) :
  (forall limit sender_filter subject_filter,
      fst (get_unread_emails limit sender_filter subject_filter w)
      <> Raise (HttpError status message))
  /\ (forall days limit query_filter,
      fst (get_emails_by_filter days limit query_filter w)
      <> Raise (HttpError status message))
  /\ (forall to_email subject body is_html reply_to_id,
      fst (send_email to_email subject body is_html reply_to_id w)
      <> Raise (HttpError status message))
  /\ (forall message_id,
      fst (mark_as_read message_id w) <> Raise (HttpError status message))
  /\ fst (get_profile_info w) <> Raise (HttpError status message).
Proof.
  repeat split; intros;
    apply handled_never_raises_http; intros e w'; eexists; reflexivity.
Qed.

(** ** Send *)

Section SendOutcomes.
Context {P : Platform}.

Lemma send_email_run (to_email subject body : string) (is_html : bool)
    (reply_to_id : option string) (request : pyval) (w : world) :
  send_email_request to_email subject body is_html reply_to_id = Ok request ->
  send_email to_email subject body is_html reply_to_id w =
  try_except_HttpError
    (result ← call (ReqSend request);
     message_id ← lift (getitem result "id");
     thread_id ← lift (get_default result "threadId" PNone);
     mret (SendOk message_id thread_id))
    (fun error => mret (SendFailed (str_exn error))) w.
Proof. intros H. unfold send_email. unfold_st. now rewrite H. Qed.

End SendOutcomes.

(** X11.  When the send endpoint answers with a dict that has an id,
    [send_email] returns success with that id and with the thread id of
    the answer, None when the answer has none.  When the endpoint fails
    with an HttpError it returns the failure result with the text of the
    error.  In both cases exactly one call was made. *)
Theorem send_email_reports_the_answer {P : Platform}
    (to_email subject body : string) (is_html : bool) (reply_to_id : option string)
    (request : pyval) (w : world) :
  send_email_request to_email subject body is_html reply_to_id = Ok request ->
  (forall answer message_id,
      execute (ReqSend request) = Ok (PDict answer) ->
      dict_lookup "id" answer = Some message_id ->
      send_email to_email subject body is_html reply_to_id w =
      (Ok (SendOk message_id (default PNone (dict_lookup "threadId" answer))),
       mkWorld (calls w ++ [ReqSend request]) (stdout w)))
  /\ (forall status message,
      execute (ReqSend request) = Raise (HttpError status message) ->
      send_email to_email subject body is_html reply_to_id w =
      (Ok (SendFailed (str_exn (HttpError status message))),
       mkWorld (calls w ++ [ReqSend request]) (stdout w))).
Proof.
  intros Hreq. rewrite (send_email_run _ _ _ _ _ _ w Hreq). split.
  - intros answer message_id Hans Hid. unfold_st. rewrite Hans.
    unfold getitem, get_default. rewrite Hid.
    destruct (dict_lookup "threadId" answer); reflexivity.
  - intros status message Herr. unfold_st. rewrite Herr. reflexivity.
Qed.

Lemma send_email_reports_the_answer_witness :
  send_email (P := steady_platform) "a@b.c" "Hi" "Hello" false None (mkWorld [] []) =
  (Ok (SendOk (PStr "s1") PNone),
   mkWorld [ReqSend hello_request] []).
Proof.
  refine (proj1 (send_email_reports_the_answer (P := steady_platform)
                   "a@b.c" "Hi" "Hello" false None _ (mkWorld [] []) _)
            [("id", PStr "s1")] (PStr "s1") _ _); reflexivity.
Defined.

(** X12.  When the answer of the send endpoint has no id, [send_email]
    raises KeyError although the call was made and the message handed
    over; when the serializer raises an exception that is not an
    HttpError, [send_email] raises it and makes no call. *)
Theorem send_email_raises_outside_http {P : Platform}
    (to_email subject body : string) (is_html : bool) (reply_to_id : option string)
    (w : world) :
  (forall request answer,
      send_email_request to_email subject body is_html reply_to_id = Ok request ->
      execute (ReqSend request) = Ok (PDict answer) ->
      dict_lookup "id" answer = None ->
      send_email to_email subject body is_html reply_to_id w =
      (Raise (KeyError "id"), mkWorld (calls w ++ [ReqSend request]) (stdout w)))
  /\ (forall ex,
      as_bytes (build_message to_email subject body is_html reply_to_id) = Raise ex ->
      is_HttpError ex = false ->
      send_email to_email subject body is_html reply_to_id w = (Raise ex, w)).
Proof.
  split.
  - intros request answer Hreq Hans Hid. rewrite (send_email_run _ _ _ _ _ _ w Hreq).
    unfold_st. rewrite Hans. unfold getitem. rewrite Hid. reflexivity.
  - intros ex Hraw Hex. unfold send_email, send_email_request. unfold_st. unfold_bind.
    rewrite Hraw, Hex. reflexivity.
Qed.

Lemma send_email_raises_outside_http_witness :
  send_email (P := empty_platform) "a@b.c" "Hi" "Hello" false None (mkWorld [] []) =
  (Raise (KeyError "id"),
   mkWorld ([] ++ [ReqSend hello_request]) []).
Proof.
  refine (proj1 (send_email_raises_outside_http (P := empty_platform)
                   "a@b.c" "Hi" "Hello" false None (mkWorld [] [])) _ [] _ _ _);
    reflexivity.
Defined.

(** X13.  Without a reply id (None or the empty str) the message has no
    In-Reply-To and no References header and the request holds the raw
    message alone, with no thread id. *)
Theorem no_reply_id_no_threading {P : Platform}
    (to_email subject body : string) (is_html : bool) (reply_to_id : option string) :
  truthy reply_to_id = false ->
  msg_get_all (build_message to_email subject body is_html reply_to_id) "In-Reply-To" = []
  /\ msg_get_all (build_message to_email subject body is_html reply_to_id) "References" = []
  /\ forall raw,
       as_bytes (build_message to_email subject body is_html reply_to_id) = Ok raw ->
       send_email_request to_email subject body is_html reply_to_id =
       Ok (PDict [("raw", PStr (Base64.urlsafe_b64encode raw))]).
Proof.
  intros Ht. split; [|split].
  - unfold build_message. rewrite Ht. destruct is_html; reflexivity.
  - unfold build_message. rewrite Ht. destruct is_html; reflexivity.
  - intros raw Hraw. unfold send_email_request. unfold_bind. rewrite Hraw, Ht. reflexivity.
Qed.

Lemma no_reply_id_no_threading_witness :
  msg_get_all (build_message "a@b.c" "Hi" "Hello" true None) "In-Reply-To" = []
  /\ msg_get_all (build_message "a@b.c" "Hi" "Hello" true None) "References" = []
  /\ forall raw,
       as_bytes (Platform := steady_platform)
         (build_message "a@b.c" "Hi" "Hello" true None) = Ok raw ->
       send_email_request (P := steady_platform) "a@b.c" "Hi" "Hello" true None =
       Ok (PDict [("raw", PStr (Base64.urlsafe_b64encode raw))]).
Proof.
  refine (no_reply_id_no_threading (P := steady_platform) "a@b.c" "Hi" "Hello" true None _).
  reflexivity.
Defined.

(** X14.  Every message built has exactly one to header and one subject
    header, holding the recipient and the subject given, found under any
    letter case of the name.  For an HTML message the body is the single
    text/html part of a multipart/alternative container; otherwise the
    message is a single text/plain part holding the body. *)
Theorem built_message_shape (to_email subject body : string) (is_html : bool)
    (reply_to_id : option string) :
  let message := build_message to_email subject body is_html reply_to_id in
  msg_get_all message "to" = [to_email]
  /\ msg_get_all message "subject" = [subject]
  /\ msg_get message "To" = Some to_email
  /\ msg_get message "Subject" = Some subject
  /\ msg_payload message =
     (if is_html then Multipart [MIMEText body "html"] else TextPayload body)
  /\ msg_get message "Content-Type" =
     (if is_html then Some "multipart/alternative"
      else msg_get (MIMEText body "plain") "Content-Type").
Proof.
  unfold build_message.
  destruct (truthy reply_to_id), is_html; repeat split; reflexivity.
Qed.

(** ** Mark-read and profile *)

Section MarkReadFacts.
Context {P : Platform}.

Lemma mark_as_read_run (message_id : string) (w : world) :
  mark_as_read message_id w =
  match execute (ReqModify message_id (PDict [("removeLabelIds", PList [PStr "UNREAD"])])) with
  | Ok _ =>
      (Ok true,
       mkWorld (calls w ++ [ReqModify message_id
                              (PDict [("removeLabelIds", PList [PStr "UNREAD"])])])
         (stdout w))
  | Raise e =>
      if is_HttpError e then
        (Ok false,
         mkWorld (calls w ++ [ReqModify message_id
                                (PDict [("removeLabelIds", PList [PStr "UNREAD"])])])
           (stdout w ++ [("❌ Error marking email as read: " ++ str_exn e)%string]))
      else
        (Raise e,
         mkWorld (calls w ++ [ReqModify message_id
                                (PDict [("removeLabelIds", PList [PStr "UNREAD"])])])
           (stdout w))
  end.
Proof.
  unfold mark_as_read. unfold_st.
  destruct (execute _) as [r|e]; [reflexivity|]. now destruct (is_HttpError e).
Qed.

End MarkReadFacts.

(** X15.  [mark_as_read] returns True exactly when the modify call is
    answered: an HttpError gives False and one printed line, and any
    other exception of the call is raised.  Nothing is printed on
    success. *)
Theorem mark_as_read_result {P : Platform} (message_id : string) (w : world) :
  let modify := ReqModify message_id (PDict [("removeLabelIds", PList [PStr "UNREAD"])]) in
  (forall answer, execute modify = Ok answer ->
      mark_as_read message_id w = (Ok true, mkWorld (calls w ++ [modify]) (stdout w)))
  /\ (forall status message, execute modify = Raise (HttpError status message) ->
      mark_as_read message_id w =
      (Ok false,
       mkWorld (calls w ++ [modify])
         (stdout w ++
          [("❌ Error marking email as read: " ++ str_exn (HttpError status message))%string])))
  /\ (forall ex, execute modify = Raise ex -> is_HttpError ex = false ->
      mark_as_read message_id w = (Raise ex, mkWorld (calls w ++ [modify]) (stdout w))).
Proof.
  intros modify. rewrite mark_as_read_run. fold modify.
  repeat split; intros; repeat match goal with H : _ = _ |- _ => rewrite H end; reflexivity.
Qed.

Lemma mark_as_read_result_witness :
  mark_as_read (P := steady_platform) "m1" (mkWorld [] []) =
  (Ok true,
   mkWorld [ReqModify "m1" (PDict [("removeLabelIds", PList [PStr "UNREAD"])])] [])
  /\ mark_as_read (P := down_platform) "m1" (mkWorld [] []) =
     (Ok false,
      mkWorld [ReqModify "m1" (PDict [("removeLabelIds", PList [PStr "UNREAD"])])]
        ["❌ Error marking email as read: HttpError"]).
Proof.
  split.
  - refine (proj1 (mark_as_read_result (P := steady_platform) "m1" (mkWorld [] []))
              (PDict []) _). reflexivity.
  - refine (proj1 (proj2 (mark_as_read_result (P := down_platform) "m1" (mkWorld [] [])))
              503 "Service Unavailable" _). reflexivity.
Defined.

(** X17.  [get_profile_info] makes one profile call.  From an answer that
    has the three keys it returns the address and the two totals; on an
    HttpError it prints one line and returns None; an answer that lacks
    one of the keys makes it raise KeyError. *)
Theorem get_profile_info_result {P : Platform} (w : world) :
  (forall answer email messages threads,
      execute ReqProfile = Ok (PDict answer) ->
      dict_lookup "emailAddress" answer = Some email ->
      dict_lookup "messagesTotal" answer = Some messages ->
      dict_lookup "threadsTotal" answer = Some threads ->
      get_profile_info w =
      (Ok (Some (mkProfile email messages threads)),
       mkWorld (calls w ++ [ReqProfile]) (stdout w)))
  /\ (forall status message,
      execute ReqProfile = Raise (HttpError status message) ->
      get_profile_info w =
      (Ok None,
       mkWorld (calls w ++ [ReqProfile])
         (stdout w ++
          [("❌ Error getting profile: " ++ str_exn (HttpError status message))%string])))
  /\ (forall answer email,
      execute ReqProfile = Ok (PDict answer) ->
      dict_lookup "emailAddress" answer = Some email ->
      dict_lookup "messagesTotal" answer = None ->
      get_profile_info w =
      (Raise (KeyError "messagesTotal"), mkWorld (calls w ++ [ReqProfile]) (stdout w))).
Proof.
  unfold get_profile_info. unfold_st. unfold getitem. repeat split.
  - intros answer email messages threads -> -> -> ->. reflexivity.
  - intros status message ->. reflexivity.
  - intros answer email -> -> ->. reflexivity.
Qed.

Lemma get_profile_info_result_witness :
  get_profile_info (P := steady_platform) (mkWorld [] []) =
  (Ok (Some (mkProfile (PStr "a@b.c") (PInt 7) (PInt 3))), mkWorld [ReqProfile] [])
  /\ get_profile_info (P := down_platform) (mkWorld [] []) =
     (Ok None, mkWorld [ReqProfile] ["❌ Error getting profile: HttpError"]).
Proof.
  split.
  - refine (proj1 (get_profile_info_result (P := steady_platform) (mkWorld [] []))
              _ _ _ _ eq_refl _ _ _); reflexivity.
  - refine (proj1 (proj2 (get_profile_info_result (P := down_platform) (mkWorld [] [])))
              503 "Service Unavailable" _). reflexivity.
Defined.



(** X18.  Whatever the stored files and the servers' answers,
    [authenticate] makes at most one exchange with the authorization
    server (a refresh or a consent flow, never both) and leaves
    credentials.json alone.  It writes the token file only after an
    exchange, and then the file holds the JSON of the new Credential;
    otherwise the token file is as it was. *)
Theorem authenticate_exchanges_at_most_once {P : AuthPlatform} (w : auth_world) :
  exists evs,
    events (snd (authenticate w)) = events w ++ evs
    /\ (length (List.filter is_exchange evs) <= 1)%nat
    /\ secrets_file (snd (authenticate w)) = secrets_file w
    /\ ((existsb is_write evs = false /\ token_file (snd (authenticate w)) = token_file w)
        \/ exists before c' after,
             evs = before ++ [EvOpenTruncate; EvWrite (cred_json c')] ++ after
             /\ existsb is_exchange before = true
             /\ token_file (snd (authenticate w)) = Some (cred_json c')).
Proof.
  assert (Hquiet : forall (r : outcome bool) w1 evs,
            events w1 = events w ++ evs -> secrets_file w1 = secrets_file w ->
            token_file w1 = token_file w ->
            (length (List.filter is_exchange evs) <= 1)%nat -> existsb is_write evs = false ->
            exists evs,
              events (snd (r, w1)) = events w ++ evs
              /\ (length (List.filter is_exchange evs) <= 1)%nat
              /\ secrets_file (snd (r, w1)) = secrets_file w
              /\ ((existsb is_write evs = false /\ token_file (snd (r, w1)) = token_file w)
                  \/ exists before c' after,
                       evs = before ++ [EvOpenTruncate; EvWrite (cred_json c')] ++ after
                       /\ existsb is_exchange before = true
                       /\ token_file (snd (r, w1)) = Some (cred_json c'))).
  { intros r w1 evs He Hs Ht Hlen Hw. exists evs. cbn [snd]. auto 6. }
  assert (Hsave : forall c' w1 ex,
            events w1 = events w ++ [ex] -> secrets_file w1 = secrets_file w ->
            is_exchange ex = true ->
            exists evs,
              events (snd ((_ ← save_credentials c'; build_service c') w1)) = events w ++ evs
              /\ (length (List.filter is_exchange evs) <= 1)%nat
              /\ secrets_file (snd ((_ ← save_credentials c'; build_service c') w1)) =
                 secrets_file w
              /\ ((existsb is_write evs = false
                   /\ token_file (snd ((_ ← save_credentials c'; build_service c') w1)) =
                      token_file w)
                  \/ exists before c'' after,
                       evs = before ++ [EvOpenTruncate; EvWrite (cred_json c'')] ++ after
                       /\ existsb is_exchange before = true
                       /\ token_file (snd ((_ ← save_credentials c'; build_service c') w1)) =
                          Some (cred_json c''))).
  { intros c' w1 ex He Hs Hex.
    destruct (save_then_build c' w1) as (He' & Ht' & Hs').
    exists ([ex] ++ [EvOpenTruncate; EvWrite (cred_json c'); EvBuild c']).
    rewrite He', Ht', Hs', He, Hs, <- app_assoc. repeat split; auto.
    - cbn. rewrite Hex. cbn. lia.
    - right. exists [ex], c', [EvBuild c']. cbn. rewrite Hex. auto. }
  assert (Hconsent :
            exists evs,
              events (snd (after_consent w)) = events w ++ evs
              /\ (length (List.filter is_exchange evs) <= 1)%nat
              /\ secrets_file (snd (after_consent w)) = secrets_file w
              /\ ((existsb is_write evs = false
                   /\ token_file (snd (after_consent w)) = token_file w)
                  \/ exists before c' after,
                       evs = before ++ [EvOpenTruncate; EvWrite (cred_json c')] ++ after
                       /\ existsb is_exchange before = true
                       /\ token_file (snd (after_consent w)) = Some (cred_json c'))).
  { unfold after_consent. rewrite consent_run.
    destruct (secrets_file w) as [content|] eqn:Hsec.
    - destruct (from_client_secrets_file content) as [[]|e].
      + destruct (run_local_server content) as [c'|e].
        * apply (Hsave c' _ EvLocalServer); cbn; auto.
        * destruct (is_Exception e); apply (Hquiet _ _ [EvLocalServer]); cbn; auto.
      + apply (Hquiet _ _ []); cbn; auto using app_nil_r.
    - apply (Hquiet _ _ []); cbn; auto using app_nil_r. }
  rewrite authenticate_run.
  destruct (token_file w) as [content|] eqn:Hfile; [|exact Hconsent].
  destruct (from_authorized_user_file content) as [c|e].
  - destruct (cred_valid c).
    + destruct (build_service_frame c w) as (He & Ht & Hs).
      exists [EvBuild c]. rewrite He, Ht, Hs, Hfile. cbn. auto 6.
    + destruct (cred_expired c && truthy (cred_refresh_token c)); [|exact Hconsent].
      destruct (refresh c) as [c'|e].
      * apply (Hsave c' _ (EvRefresh c)); cbn; auto.
      * apply (Hquiet _ _ [EvRefresh c]); cbn; auto.
  - apply (Hquiet _ _ []); cbn; auto using app_nil_r.
Qed.

(** X19.  When no usable token is stored and credentials.json is missing,
    [authenticate] returns False after printing where to put the file
    and how to get it; it contacts no server, writes nothing and builds
    no client. *)
Theorem authenticate_without_client_secrets {P : AuthPlatform} (w : auth_world) :
  needs_consent w ->
  secrets_file w = None ->
  authenticate w = (Ok false, add_lines w missing_credentials_lines).
Proof.
  intros Hn Hs. rewrite (authenticate_needs_consent w Hn).
  unfold after_consent. now rewrite consent_run, Hs.
Qed.

Lemma authenticate_without_client_secrets_witness :
  authenticate (P := sample_auth expired_credentials (Ok valid_credentials))
    (mkAuthWorld None None None [] []) =
  (Ok false,
   add_lines (mkAuthWorld None None None [] [])
     (missing_credentials_lines (P := sample_auth expired_credentials (Ok valid_credentials)))).
Proof.
  refine (authenticate_without_client_secrets
            (P := sample_auth expired_credentials (Ok valid_credentials))
            (mkAuthWorld None None None [] []) _ _).
  - exact I.
  - reflexivity.
Defined.

(** X20.  When no usable token is stored and the local server of the
    consent flow raises an Exception, [authenticate] returns False after
    printing the steps of the manual setup with the authorization URL;
    the token file is not written and no client is built.  An exception
    of the local server that is not an Exception (KeyboardInterrupt,
    SystemExit) is raised, and nothing is printed. *)
Theorem authenticate_headless_fallback {P : AuthPlatform}
    (w : auth_world) (content : string) (ex : exn) :
  needs_consent w ->
  secrets_file w = Some content ->
  from_client_secrets_file content = Ok tt ->
  run_local_server content = Raise ex ->
  (is_Exception ex = true ->
   authenticate w =
   (Ok false, add_lines (add_events w [EvLocalServer]) (manual_setup_lines content)))
  /\ (is_Exception ex = false ->
      authenticate w = (Raise ex, add_events w [EvLocalServer])).
Proof.
  intros Hn Hs Hflow Hrun. rewrite (authenticate_needs_consent w Hn).
  unfold after_consent. rewrite consent_run, Hs, Hflow, Hrun.
  split; intros ->; reflexivity.
Qed.

Lemma authenticate_headless_fallback_witness :
  authenticate (P := sample_auth expired_credentials (Ok valid_credentials))
    (mkAuthWorld None (Some "{installed: {}}") None [] []) =
  (Ok false,
   add_lines (add_events (mkAuthWorld None (Some "{installed: {}}") None [] [])
                [EvLocalServer])
     (manual_setup_lines (P := sample_auth expired_credentials (Ok valid_credentials))
        "{installed: {}}")).
Proof.
  refine (proj1 (authenticate_headless_fallback
                   (P := sample_auth expired_credentials (Ok valid_credentials))
                   (mkAuthWorld None (Some "{installed: {}}") None [] []) "{installed: {}}"
                   (OtherError "OSError") _ _ _ _) _).
  - exact I.
  - reflexivity.
  - reflexivity.
  - reflexivity.
  - reflexivity.
Defined.

(** ** The commands that complete the manual authorization *)

(** X21.  The auth-code command without a code prints one line and exits
    with status 1.  When the exchange of the code raises an Exception it
    prints the failure and exits with status 1, and the token file is
    not written; an exception of the exchange that is not an Exception
    (KeyboardInterrupt, SystemExit) is raised, the token file unwritten
    as well. *)
Theorem auth_code_failures {P : AuthPlatform} (w : auth_world) :
  (forall code, truthy code = false ->
      auth_code code w = (Ok 1, add_lines w ["❌ Missing required argument: --code"]))
  /\ (forall code content ex,
      code <> "" ->
      secrets_file w = Some content ->
      from_client_secrets_file content = Ok tt ->
      fetch_token content code = Raise ex ->
      is_Exception ex = true ->
      auth_code (Some code) w =
      (Ok 1,
       add_lines (add_events w [EvFetchToken code])
         [("❌ Authentication failed: " ++ str_auth_exn ex)%string]))
  /\ (forall code content ex,
      code <> "" ->
      secrets_file w = Some content ->
      from_client_secrets_file content = Ok tt ->
      fetch_token content code = Raise ex ->
      is_Exception ex = false ->
      auth_code (Some code) w = (Raise ex, add_events w [EvFetchToken code])).
Proof.
  assert (Hrun : forall code content ex,
            code <> "" -> secrets_file w = Some content ->
            from_client_secrets_file content = Ok tt ->
            fetch_token content code = Raise ex ->
            auth_code (Some code) w =
            if is_Exception ex then
              (Ok 1,
               add_lines (add_events w [EvFetchToken code])
                 [("❌ Authentication failed: " ++ str_auth_exn ex)%string])
            else (Raise ex, add_events w [EvFetchToken code])).
  { intros code content ex Hcode Hs Hflow Hfetch.
    unfold auth_code. rewrite (truthy_nonempty code Hcode). cbn [negb default from_option id].
    unfold read_secrets_file, external, log_event, try_except_Exception.
    unfold mbind, ST_bind, st_bind, lift. cbn [fst snd]. rewrite Hs, Hflow.
    cbn [secrets_file token_file]. rewrite Hfetch. now destruct (is_Exception ex). }
  repeat split.
  - intros code Hc. unfold auth_code. rewrite Hc. reflexivity.
  - intros code content ex Hcode Hs Hflow Hfetch Hex.
    rewrite (Hrun code content ex) by assumption. now rewrite Hex.
  - intros code content ex Hcode Hs Hflow Hfetch Hex.
    rewrite (Hrun code content ex) by assumption. now rewrite Hex.
Qed.

Lemma auth_code_failures_witness :
  auth_code (P := refusing_auth) None stored_world =
  (Ok 1, add_lines stored_world ["❌ Missing required argument: --code"])
  /\ auth_code (P := refusing_auth) (Some "4/bad") stored_world =
     (Ok 1, add_lines (add_events stored_world [EvFetchToken "4/bad"])
              ["❌ Authentication failed: error"]).
Proof.
  split.
  - refine (proj1 (auth_code_failures (P := refusing_auth) stored_world) None _). reflexivity.
  - refine (proj1 (proj2 (auth_code_failures (P := refusing_auth) stored_world))
              "4/bad" "{installed: {}}" (OtherError "InvalidGrantError") _ _ _ _ _);
      try reflexivity. discriminate.
Defined.

(** X22.  Without credentials.json the auth-url command prints that the
    credentials were not found and exits with status 1, while the
    auth-code command, which does not look for the file first, raises
    FileNotFoundError.  With the file, auth-url prints the five steps with
    the consent URL and exits with status 0.  The auth-url command
    contacts no server and writes nothing. *)
Theorem auth_commands_and_client_secrets {P : AuthPlatform}
    (consent_url : string -> string) (w : auth_world) :
  (secrets_file w = None ->
   auth_url consent_url w = (Ok 1, add_lines w ["❌ Gmail credentials not found!"]))
  /\ (forall code, code <> "" -> secrets_file w = None ->
      auth_code (Some code) w = (Raise (OtherError "FileNotFoundError"), w))
  /\ (forall content,
      secrets_file w = Some content ->
      from_client_secrets_file content = Ok tt ->
      auth_url consent_url w =
      (Ok 0,
       add_lines w
         ["🌐 Manual OAuth Setup:";
          ("1. Go to: " ++ consent_url content)%string;
          "2. Authorize the application";
          "3. Copy the authorization code from the URL";
          "4. Run: ./lib/gmail-fetch.sh auth-code --code <AUTHORIZATION_CODE>"])).
Proof.
  repeat split.
  - intros Hs. unfold auth_url, read_secrets_file.
    unfold mbind at 1, ST_bind, st_bind at 1. cbn [fst snd]. rewrite Hs. reflexivity.
  - intros code Hcode Hs. unfold auth_code. rewrite (truthy_nonempty code Hcode).
    cbn [negb]. unfold read_secrets_file.
    unfold mbind at 1, ST_bind, st_bind at 1. cbn [fst snd]. rewrite Hs. reflexivity.
  - intros content Hs Hflow. unfold auth_url, read_secrets_file.
    unfold mbind at 1, ST_bind, st_bind at 1. cbn [fst snd]. rewrite Hs.
    unfold mbind at 1, ST_bind, st_bind at 1, lift. rewrite Hflow.
    rewrite !auth_print_then. unfold mret, ST_ret, st_ret.
    rewrite !add_lines_twice. reflexivity.
Qed.

Lemma auth_commands_and_client_secrets_witness :
  auth_url (P := refusing_auth) (fun _ => "https://accounts.google.com/o/oauth2/auth")
    (mkAuthWorld None None None [] []) =
  (Ok 1, add_lines (mkAuthWorld None None None [] []) ["❌ Gmail credentials not found!"])
  /\ auth_code (P := refusing_auth) (Some "4/code") (mkAuthWorld None None None [] []) =
     (Raise (OtherError "FileNotFoundError"), mkAuthWorld None None None [] []).
Proof.
  split.
  - refine (proj1 (auth_commands_and_client_secrets (P := refusing_auth) _
                     (mkAuthWorld None None None [] [])) _). reflexivity.
  - refine (proj1 (proj2 (auth_commands_and_client_secrets (P := refusing_auth)
                            (fun _ => "") (mkAuthWorld None None None [] [])))
              "4/code" _ _); [discriminate | reflexivity].
Defined.

(** ** The send and mark-read commands *)

Section CommandFacts.
Context {P : Platform} {C : Console}.

Lemma main_send_run (to subject body : option string) (html : bool) (w : world) :
  truthy to && truthy subject && truthy body = true ->
  main_send to subject body html w =
  match send_email (default "" to) (default "" subject) (default "" body) html None w with
  | (Ok (SendOk message_id thread_id), w1) =>
      (Ok 0,
       mkWorld (calls w1)
         (stdout w1 ++ ["✅ Email sent successfully!";
                        ("   Message ID: " ++ str_value message_id)%string;
                        ("   Thread ID: " ++ str_value thread_id)%string]))
  | (Ok (SendFailed error), w1) =>
      (Ok 1, mkWorld (calls w1) (stdout w1 ++ [("❌ Failed to send email: " ++ error)%string]))
  | (Raise e, w1) => (Raise e, w1)
  end.
Proof.
  rewrite !andb_true_iff. intros [[Ht Hs] Hb]. unfold main_send.
  rewrite Ht, Hs, Hb. cbn [negb orb].
  unfold mbind at 1, ST_bind, st_bind at 1.
  destruct (send_email _ _ _ _ _ w) as [[[mid tid|err]|e] w1]; [| |reflexivity].
  - unfold print. unfold_st. cbn. now rewrite <- !app_assoc.
  - reflexivity.
Qed.

End CommandFacts.

(** X23.  The send command run without a recipient, a subject or a body
    (absent or empty) prints one line and exits with status 1 without
    calling the remote API. *)
Theorem main_send_missing_argument {P : Platform} {C : Console}
    (to subject body : option string) (html : bool) (w : world) :
  truthy to && truthy subject && truthy body = false ->
  main_send to subject body html w =
  (Ok 1,
   mkWorld (calls w) (stdout w ++ ["❌ Missing required arguments: --to, --subject, --body"])).
Proof.
  intros H. unfold main_send.
  replace (negb (truthy to) || negb (truthy subject) || negb (truthy body)) with true.
  - reflexivity.
  - destruct (truthy to), (truthy subject), (truthy body); cbn in *; congruence.
Qed.

Lemma main_send_missing_argument_witness :
  main_send (P := steady_platform) (C := sample_console) (Some "a@b.c") (Some "") (Some "Hello")
    true (mkWorld [] []) =
  (Ok 1, mkWorld [] ([] ++ ["❌ Missing required arguments: --to, --subject, --body"])).
Proof.
  refine (main_send_missing_argument (P := steady_platform) (C := sample_console)
            (Some "a@b.c") (Some "") (Some "Hello") true (mkWorld [] []) _).
  reflexivity.
Defined.

(** X24.  The send command never replies into a thread: it makes no call
    at all, or exactly one send call whose request holds the raw message
    alone, with no thread id.  It exits with status 0 only when that call
    was made and answered. *)
Theorem main_send_never_threads {P : Platform} {C : Console}
    (to subject body : option string) (html : bool) (w : world) :
  (calls (snd (main_send to subject body html w)) = calls w
   \/ exists raw,
        calls (snd (main_send to subject body html w)) =
        calls w ++ [ReqSend (PDict [("raw", PStr raw)])])
  /\ (fst (main_send to subject body html w) = Ok 0 ->
      exists request answer,
        calls (snd (main_send to subject body html w)) = calls w ++ [ReqSend request]
        /\ execute (ReqSend request) = Ok answer).
Proof.
  destruct (truthy to && truthy subject && truthy body) eqn:Hargs.
  - rewrite (main_send_run _ _ _ _ _ Hargs).
    destruct (as_bytes (build_message (default "" to) (default "" subject)
                          (default "" body) html None)) as [raw|ex] eqn:Hraw.
    + assert (Hreq : send_email_request (default "" to) (default "" subject)
                       (default "" body) html None =
                     Ok (PDict [("raw", PStr (Base64.urlsafe_b64encode raw))])).
      { unfold send_email_request. unfold_bind. now rewrite Hraw. }
      pose proof (send_email_calls _ _ _ _ _ _ w Hreq) as Hcalls.
      rewrite (send_email_run _ _ _ _ _ _ w Hreq) in *.
      unfold try_except_HttpError, call in *. unfold_st.
      destruct (execute (ReqSend (PDict [("raw", PStr (Base64.urlsafe_b64encode raw))])))
        as [answer|e] eqn:Hex.
      * destruct (getitem answer "id") as [mid|e]; cbn -[get_default] in *.
        -- destruct (get_default answer "threadId" PNone) as [tid|e]; cbn in *.
           ++ split; [right; eexists; reflexivity|]. intros _. eauto.
           ++ destruct (is_HttpError e); cbn;
                (split; [right; eexists; reflexivity | discriminate]).
        -- destruct (is_HttpError e); cbn;
             (split; [right; eexists; reflexivity | discriminate]).
      * destruct (is_HttpError e); cbn;
          (split; [right; eexists; reflexivity | discriminate]).
    + unfold send_email, send_email_request. unfold_st. unfold_bind. rewrite Hraw.
      destruct (is_HttpError ex); cbn; (split; [now left | discriminate]).
  - rewrite (main_send_missing_argument _ _ _ _ _ Hargs). cbn.
    split; [now left | discriminate].
Qed.

(** X25.  The mark-read command without a message id prints one line and
    exits with status 1 without calling the remote API; with an id it
    exits with status 0 when the modify call is answered, and with status
    1, after the error and a failure line, when the call fails with an
    HttpError. *)
Theorem main_mark_read_status {P : Platform} (w : world) :
  (forall message_id, truthy message_id = false ->
      main_mark_read message_id w =
      (Ok 1, mkWorld (calls w) (stdout w ++ ["❌ Missing required argument: --message-id"])))
  /\ (forall message_id answer,
      message_id <> "" ->
      execute (ReqModify message_id (PDict [("removeLabelIds", PList [PStr "UNREAD"])])) =
      Ok answer ->
      main_mark_read (Some message_id) w =
      (Ok 0,
       mkWorld (calls w ++ [ReqModify message_id
                              (PDict [("removeLabelIds", PList [PStr "UNREAD"])])])
         (stdout w ++ [("✅ Email marked as read: " ++ message_id)%string])))
  /\ (forall message_id status message,
      message_id <> "" ->
      execute (ReqModify message_id (PDict [("removeLabelIds", PList [PStr "UNREAD"])])) =
      Raise (HttpError status message) ->
      main_mark_read (Some message_id) w =
      (Ok 1,
       mkWorld (calls w ++ [ReqModify message_id
                              (PDict [("removeLabelIds", PList [PStr "UNREAD"])])])
         (stdout w ++
          [("❌ Error marking email as read: " ++ str_exn (HttpError status message))%string;
           "❌ Failed to mark email as read"]))).
Proof.
  repeat split.
  - intros message_id H. unfold main_mark_read. rewrite H. reflexivity.
  - intros message_id answer Hid Hex. unfold main_mark_read.
    rewrite (truthy_nonempty _ Hid). cbn [negb default from_option id].
    unfold mbind at 1, ST_bind, st_bind at 1. rewrite mark_as_read_run, Hex. reflexivity.
  - intros message_id status message Hid Hex. unfold main_mark_read.
    rewrite (truthy_nonempty _ Hid). cbn [negb default from_option id].
    unfold mbind at 1, ST_bind, st_bind at 1. rewrite mark_as_read_run, Hex.
    cbn [is_HttpError]. unfold print. unfold_st. cbn. now rewrite <- app_assoc.
Qed.

Lemma main_mark_read_status_witness :
  main_mark_read (P := steady_platform) None (mkWorld [] []) =
  (Ok 1, mkWorld [] ([] ++ ["❌ Missing required argument: --message-id"]))
  /\ main_mark_read (P := steady_platform) (Some "m1") (mkWorld [] []) =
     (Ok 0,
      mkWorld ([] ++ [ReqModify "m1" (PDict [("removeLabelIds", PList [PStr "UNREAD"])])])
        ([] ++ ["✅ Email marked as read: m1"])).
Proof.
  split.
  - refine (proj1 (main_mark_read_status (P := steady_platform)
                     (mkWorld [] [])) None _). reflexivity.
  - refine (proj1 (proj2 (main_mark_read_status (P := steady_platform)
                            (mkWorld [] []))) "m1" (PDict []) _ _);
      [discriminate | reflexivity].
Defined.

(** ** Batch reads only read *)

Section ReadOnly.
Context {P : Platform}.

Lemma fetch_each_only_gets (items : list pyval) (acc : list Email) (w : world) :
  exists gets,
    calls (snd (fetch_each items acc w)) = calls w ++ gets
    /\ forallb is_get gets = true
    /\ (length gets <= length items)%nat
    /\ stdout (snd (fetch_each items acc w)) = stdout w.
Proof.
  revert acc w. induction items as [|m items IH]; intros acc w.
  - exists []. cbn. rewrite app_nil_r. auto.
  - cbn [fetch_each]. unfold_st.
    destruct (getitem m "id") as [id|e].
    + destruct (execute (ReqGet id)) as [msg|e].
      * destruct (_parse_email msg) as [email_data|e].
        -- destruct (IH (acc ++ [email_data]) (mkWorld (calls w ++ [ReqGet id]) (stdout w)))
             as (gets & Hc & Hg & Hl & Hs).
           exists (ReqGet id :: gets). rewrite Hc, Hs. cbn. rewrite <- app_assoc.
           repeat split; auto. lia.
        -- exists [ReqGet id]. cbn. repeat split; auto. lia.
      * exists [ReqGet id]. cbn. repeat split; auto. lia.
    + exists []. cbn. rewrite app_nil_r. repeat split; auto. lia.
Qed.

Lemma fetch_query_only_reads (q : string) (limit : Z) (w : world) :
  exists gets,
    calls (snd (fetch_query q limit w)) = calls w ++ ReqList q limit :: gets
    /\ forallb is_get gets = true
    /\ stdout (snd (fetch_query q limit w)) = stdout w.
Proof.
  unfold fetch_query. unfold_st.
  destruct (execute (ReqList q limit)) as [results|e]; [|exists []; cbn; auto].
  destruct (get_default results "messages" (PList [])) as [messages|e];
    [|exists []; cbn; auto].
  destruct (py_iter messages) as [items|e]; [|exists []; cbn; auto].
  destruct (fetch_each_only_gets items [] (mkWorld (calls w ++ [ReqList q limit]) (stdout w)))
    as (gets & Hc & Hg & _ & Hs).
  exists gets. rewrite Hc, Hs. cbn. rewrite <- app_assoc. auto.
Qed.

Lemma batch_only_reads (q : string) (limit : Z) (w : world) :
  exists gets,
    calls (snd (try_except_HttpError (fetch_query q limit) report_fetch_error w)) =
    calls w ++ ReqList q limit :: gets
    /\ forallb is_get gets = true.
Proof.
  destruct (fetch_query_only_reads q limit w) as (gets & Hc & Hg & _).
  exists gets. split; [|exact Hg].
  unfold try_except_HttpError. destruct (fetch_query q limit w) as [[a|e] w1]; [exact Hc|].
  destruct (is_HttpError e); exact Hc.
Qed.

End ReadOnly.

(** X26.  A batch read only reads.  [get_unread_emails] makes one list
    call, with the query it built and the caller's limit, and after it
    nothing but get calls.  [get_emails_by_filter] does the same once
    its date is computed; when computing the date raises (OverflowError
    for days out of range) it makes no call at all and, the exception
    not being an HttpError, raises it.  Neither ever sends or modifies. *)
Theorem batch_reads_only_read {P : Platform} (w : world) :
  (forall limit sender_filter subject_filter,
      exists gets,
        calls (snd (get_unread_emails limit sender_filter subject_filter w)) =
        calls w ++ ReqList (unread_query sender_filter subject_filter) limit :: gets
        /\ forallb is_get gets = true)
  /\ (forall days limit query_filter q,
      filter_query days query_filter = Ok q ->
      exists gets,
        calls (snd (get_emails_by_filter days limit query_filter w)) =
        calls w ++ ReqList q limit :: gets
        /\ forallb is_get gets = true)
  /\ (forall days limit query_filter ex,
      filter_query days query_filter = Raise ex ->
      calls (snd (get_emails_by_filter days limit query_filter w)) = calls w
      /\ (is_HttpError ex = false ->
          get_emails_by_filter days limit query_filter w = (Raise ex, w))).
Proof.
  repeat split.
  - intros. apply batch_only_reads.
  - intros days limit qf q Hq. rewrite (get_emails_by_filter_run _ _ _ _ _ Hq).
    apply batch_only_reads.
  - unfold get_emails_by_filter, try_except_HttpError.
    unfold mbind at 1, ST_bind, st_bind at 1, lift. rewrite H.
    destruct (is_HttpError ex); reflexivity.
  - intros Hex. unfold get_emails_by_filter, try_except_HttpError.
    unfold mbind at 1, ST_bind, st_bind at 1, lift. rewrite H, Hex. reflexivity.
Qed.

Lemma batch_reads_only_read_witness :
  (exists gets,
      calls (snd (get_emails_by_filter (P := steady_platform) 7 50 "" (mkWorld [] []))) =
      [] ++ ReqList "after:2025/01/01" 50 :: gets
      /\ forallb is_get gets = true)
  /\ get_emails_by_filter (P := overflow_platform) 4000000 50 "" (mkWorld [] []) =
     (Raise OverflowError, mkWorld [] []).
Proof.
  split.
  - refine (proj1 (proj2 (batch_reads_only_read (P := steady_platform) (mkWorld [] [])))
              7 50 "" "after:2025/01/01" _). reflexivity.
  - refine (proj2 (proj2 (proj2 (batch_reads_only_read (P := overflow_platform)
                                   (mkWorld [] [])))
                     4000000 50 "" OverflowError _) _); reflexivity.
Defined.

(** ** The base64 layer *)

Lemma translate_length (f : ascii -> ascii) (s : string) :
  String.length (Base64.translate f s) = String.length s.
Proof. induction s as [|c s IH]; cbn; [reflexivity | now rewrite IH]. Qed.

Lemma b2a_base64_length (s : string) :
  String.length (Base64.b2a_base64 s) = (4 * ((String.length s + 2) / 3))%nat.
Proof.
  induction s as [|a|a b|a b c r IH] using Base64Facts.string_triples_ind;
    try reflexivity.
  cbn [Base64.b2a_base64 String.length]. rewrite IH.
  replace (S (S (S (String.length r))) + 2)%nat with (String.length r + 2 + 1 * 3)%nat by lia.
  rewrite Nat.div_add by lia. lia.
Qed.

(** X27.  The url-safe base64 used for sending and the decoding used for
    reading are inverse on every byte string: decoding the encoding gives
    the bytes back.  The encoding is ASCII, four characters for every
    three bytes begun. *)
Theorem urlsafe_base64_inverse (bytes : string) :
  Base64.urlsafe_b64decode (Base64.urlsafe_b64encode bytes) = Ok bytes
  /\ Base64.is_ascii (Base64.urlsafe_b64encode bytes) = true
  /\ String.length (Base64.urlsafe_b64encode bytes) =
     (4 * ((String.length bytes + 2) / 3))%nat.
Proof.
  split; [apply urlsafe_b64_roundtrip|]. split; [apply Base64Facts.is_ascii_b2a|].
  unfold Base64.urlsafe_b64encode. rewrite translate_length. apply b2a_base64_length.
Qed.
